(** * COH_BOT: a shallow embedding of the game-state monitor, the attack and
      movement controllers and the Nova decision engine.

    The Python sources are [COH_BOT/game_state.py], [COH_BOT/player_attacks.py],
    [COH_BOT/player_movement.py] and [COH_BOT/llm_integrations.py].

    Conventions of the embedding:
    - Python numbers (int and float alike) are exact rationals [Q]; every
      constant that the source writes is representable, and the properties below
      compare against the integer thresholds of the source.
    - a Python [dict] is a [gmap]; [d.get(k, v)] is [default v (d !! k)] and
      [d[k]] raises [KeyError] when the key is absent.
    - effects (screen captures, clock reads, keyboard input, sleeps) thread a
      [World]; exceptions are the [Raise] results of the monad [M].
    - OpenCV, pyautogui, the Bedrock client and the [json] module are the
      external interfaces [Vision], [Host] and [Remote]. *)

From Stdlib Require Import ZArith QArith Qminmax String Ascii List Lia.
From stdpp Require Import gmap strings list fin_maps pretty.

Set Warnings "-register-all".
Local Open Scope Z_scope.

(* ===================================================================== *)
(** ** Python values, exceptions and the effect monad *)
(* ===================================================================== *)

Module Py.

(** The JSON-shaped fragment of Python values that the bot handles. *)
Inductive PyVal : Type :=
| PNone
| PBool (b : bool)
| PNum (q : Q)
| PStr (s : string)
| PList (l : list PyVal)
| PDict (d : gmap string PyVal).

Inductive Exn : Type :=
| KeyError (key : string)
| IndexError (msg : string)
| TypeError (msg : string)
| ValueError (msg : string)
| JSONDecodeError (msg : string)
| ZeroDivisionError (msg : string)
| AttributeError (msg : string)
| ClientError (msg : string).

(** [str(e)]: the message of the exception ([KeyError] shows the repr of its
    key). *)
Definition exn_str (e : Exn) : string :=
  match e with
  | KeyError k => "'" ++ k ++ "'"
  | IndexError m | TypeError m | ValueError m | JSONDecodeError m
  | ZeroDivisionError m | AttributeError m | ClientError m => m
  end.

Inductive Result (A : Type) : Type :=
| Ok (a : A)
| Raise (e : Exn).
Arguments Ok {A} a.
Arguments Raise {A} e.

(** [a < b], [max(a, b)], [min(a, b)] and [int(a)] on numbers.  Python's
    [max] keeps its first argument unless a later one is strictly greater,
    [min] unless a later one is strictly smaller; [int] truncates toward 0. *)
Definition Qlt_bool (a b : Q) : bool := negb (Qle_bool b a).
Definition py_max (a b : Q) : Q := if Qlt_bool a b then b else a.
Definition py_min (a b : Q) : Q := if Qlt_bool b a then b else a.
Definition py_int (a : Q) : Z := Z.quot (Qnum a) (Zpos (Qden a)).

(** Truthiness of a value, as [if v:] and [v or w] use it. *)
Definition truthy (v : PyVal) : bool :=
  match v with
  | PNone => false
  | PBool b => b
  | PNum q => negb (Qeq_bool q 0)
  | PStr s => negb (String.eqb s "")
  | PList l => match l with [] => false | _ => true end
  | PDict d => negb (bool_decide (d = ∅))
  end.

(** [v < n] for a numeric literal [n]: numbers and booleans compare, anything
    else raises [TypeError]. *)
Definition lt_num (v : PyVal) (n : Q) : Result bool :=
  match v with
  | PNum q => Ok (Qlt_bool q n)
  | PBool b => Ok (Qlt_bool (if b then 1 else 0)%Q n)
  | _ => Raise (TypeError "'<' not supported between instances")
  end.

(** [l[start:stop]] on a sequence: negative bounds count from the end, bounds
    are clipped to the sequence, an empty range gives the empty sequence. *)
Definition slice_bound (n i : Z) : Z :=
  if i <? 0 then Z.max (i + n) 0 else Z.min i n.

Definition py_slice {A : Type} (l : list A) (start stop : Z) : list A :=
  let n := Z.of_nat (length l) in
  let s := slice_bound n start in
  let e := slice_bound n stop in
  take (Z.to_nat (e - s)) (drop (Z.to_nat s) l).

End Py.
Export Py.

(* ===================================================================== *)
(** ** The world: captures, clock and input device *)
(* ===================================================================== *)

Definition Pixel : Type := Z * Z * Z.
Definition Image : Type := list (list Pixel).
Definition Mask : Type := list (list Z).
Definition Region : Type := Z * Z * Z * Z.          (* x, y, width, height *)
Definition Triple : Type := Z * Z * Z.
Definition ColorRange : Type := Triple * Triple.     (* lower, upper (HSV) *)

(** What pyautogui and [time] do to the outside. *)
Inductive Event : Type :=
| KeyPress (key : string)
| KeyDown (key : string)
| KeyUp (key : string)
| Sleep (seconds : Q).

Record World : Type := mkWorld {
  shots : nat;            (* screen captures taken so far *)
  ticks : nat;            (* clock reads so far *)
  events : list Event     (* keyboard input and sleeps, oldest first *)
}.

Definition world0 : World := {| shots := 0; ticks := 0; events := [] |}.

(** The display and the clock: the [n]-th capture (of the whole screen or of a
    region, as an RGB image) and the [n]-th clock read. *)
Class Host : Type := {
  pyautogui_screenshot : nat -> option Region -> Image;
  time_time : nat -> Q
}.

(** The OpenCV primitives that the monitor calls. *)
Class Vision : Type := {
  cvtColor_BGR2HSV : Image -> Image;
  cvtColor_BGR2GRAY : Image -> Mask;
  inRange : Image -> Triple -> Triple -> Mask;
  Canny : Mask -> Z -> Z -> Mask
}.

Definition M (A : Type) : Type := World -> Result A * World.

Definition ret {A : Type} (a : A) : M A := fun w => (Ok a, w).
Definition raise {A : Type} (e : Exn) : M A := fun w => (Raise e, w).
Definition bind {A B : Type} (k : A -> M B) (m : M A) : M B :=
  fun w => match m w with
           | (Ok a, w') => k a w'
           | (Raise e, w') => (Raise e, w')
           end.
(** [try: m  except Exception as e: h e] *)
Definition try_except {A : Type} (m : M A) (h : Exn -> M A) : M A :=
  fun w => match m w with
           | (Ok a, w') => (Ok a, w')
           | (Raise e, w') => h e w'
           end.

#[export] Instance M_bind : MBind M := @bind.

Definition emit (ev : Event) : M unit :=
  fun w => (Ok tt, {| shots := shots w; ticks := ticks w;
                      events := events w ++ [ev] |}).

Definition time_sleep (seconds : Q) : M unit := emit (Sleep seconds).
Definition pyautogui_press (key : string) : M unit := emit (KeyPress key).
Definition pyautogui_keyDown (key : string) : M unit := emit (KeyDown key).
Definition pyautogui_keyUp (key : string) : M unit := emit (KeyUp key).

(** [d[k]] on a dict. *)
Definition getitem {V : Type} (d : gmap string V) (k : string) : M V :=
  match d !! k with
  | Some v => ret v
  | None => raise (KeyError k)
  end.

(** [cv2.countNonZero]. *)
Definition countNonZero (m : Mask) : Z :=
  Z.of_nat (length (filter (fun v => v <> 0) (concat m))).

(** [cv2.cvtColor(..., cv2.COLOR_RGB2BGR)]: the channels swap places. *)
Definition cvtColor_RGB2BGR (img : Image) : Image :=
  map (map (fun p : Pixel => let '(r, g, b) := p in (b, g, r))) img.

(* ===================================================================== *)
(** ** game_state.py *)
(* ===================================================================== *)

Module GameState.
Section Monitor.
Context `{Host} `{Vision}.

Record GameStateMonitor : Type := mkMonitor {
  ui_regions : gmap string Region;
  color_ranges : gmap string ColorRange;
  last_endurance : option Q          (* absent until the first combat check *)
}.

(** [GameStateMonitor.__init__] *)
Definition init : GameStateMonitor :=
  {| ui_regions :=
       <["health_bar" := (50, 50, 200, 20)]>
       (<["endurance_bar" := (50, 80, 200, 20)]>
       (<["experience_bar" := (50, 110, 300, 15)]>
       (<["chat_area" := (10, 400, 500, 200)]>
       (<["target_info" := (600, 50, 200, 100)]> ∅))));
     color_ranges :=
       <["health_red" := ((0, 120, 70), (10, 255, 255))]>
       (<["health_green" := ((40, 120, 70), (80, 255, 255))]>
       (<["endurance_blue" := ((100, 120, 70), (130, 255, 255))]>
       (<["experience_yellow" := ((20, 120, 70), (30, 255, 255))]> ∅)));
     last_endurance := None |}.

(** [take_screenshot(region=None)] *)
Definition take_screenshot (region : option Region) : M Image :=
  fun w => (Ok (cvtColor_RGB2BGR (pyautogui_screenshot (shots w) region)),
            {| shots := S (shots w); ticks := ticks w; events := events w |}).

(** [image[y:y+height, x:x+width]] *)
Definition crop (image : Image) (bar_region : Region) : Image :=
  let '(x, y, width, height) := bar_region in
  map (fun row => py_slice row x (x + width)) (py_slice image y (y + height)).

(** [extract_bar_percentage(image, color_range, bar_region)] *)
Definition extract_bar_percentage
    (image : Image) (color_range : ColorRange) (bar_region : Region) : Q :=
  let '(x, y, width, height) := bar_region in
  let bar_image := crop image bar_region in
  let hsv := cvtColor_BGR2HSV bar_image in
  let '(lower, upper) := color_range in
  let mask := inRange hsv lower upper in
  let total_pixels := width * height in
  let filled_pixels := countNonZero mask in
  if 0 <? total_pixels then
    let percentage := (inject_Z filled_pixels / inject_Z total_pixels * 100)%Q in
    py_min 100 (py_max 0 percentage)
  else 0%Q.

(** [get_health_percentage()] *)
Definition get_health_percentage (self : GameStateMonitor) : M Q :=
  screenshot ← take_screenshot None;
  health_region ← getitem (ui_regions self) "health_bar";
  green ← getitem (color_ranges self) "health_green";
  let green_health := extract_bar_percentage screenshot green health_region in
  red ← getitem (color_ranges self) "health_red";
  let red_health := extract_bar_percentage screenshot red health_region in
  ret (py_max green_health red_health).

(** [get_endurance_percentage()] *)
Definition get_endurance_percentage (self : GameStateMonitor) : M Q :=
  screenshot ← take_screenshot None;
  blue ← getitem (color_ranges self) "endurance_blue";
  bar ← getitem (ui_regions self) "endurance_bar";
  ret (extract_bar_percentage screenshot blue bar).

(** [get_experience_percentage()] *)
Definition get_experience_percentage (self : GameStateMonitor) : M Q :=
  screenshot ← take_screenshot None;
  yellow ← getitem (color_ranges self) "experience_yellow";
  bar ← getitem (ui_regions self) "experience_bar";
  ret (extract_bar_percentage screenshot yellow bar).

Definition read_clock : M Q :=
  fun w => (Ok (time_time (ticks w)),
            {| shots := shots w; ticks := S (ticks w); events := events w |}).

(** [get_player_stats()] *)
Definition get_player_stats (self : GameStateMonitor) : M (gmap string PyVal) :=
  health ← get_health_percentage self;
  endurance ← get_endurance_percentage self;
  experience ← get_experience_percentage self;
  timestamp ← read_clock;
  ret (<["health" := PNum health]>
       (<["endurance" := PNum endurance]>
       (<["experience" := PNum experience]>
       (<["timestamp" := PNum timestamp]> ∅)))).

(** [detect_enemy_target()] *)
Definition detect_enemy_target (self : GameStateMonitor) : M bool :=
  region ← getitem (ui_regions self) "target_info";
  screenshot ← take_screenshot (Some region);
  let gray := cvtColor_BGR2GRAY screenshot in
  let edges := Canny gray 50 150 in
  let edge_count := countNonZero edges in
  ret (100 <? edge_count).

(** The body of [detect_combat_state] after [stats = self.get_player_stats()],
    on the endurance entry of the stats: the early [return True] leaves
    [last_endurance] as it was. *)
Definition combat_check (self : GameStateMonitor) (endurance : Q)
  : bool * GameStateMonitor :=
  let seed := {| ui_regions := ui_regions self;
                 color_ranges := color_ranges self;
                 last_endurance := Some endurance |} in
  match last_endurance self with
  | Some last =>
      let endurance_change := (last - endurance)%Q in
      if Qlt_bool 5 endurance_change then (true, self) else (false, seed)
  | None => (false, seed)
  end.

(** [stats['endurance']] of a stats dict, as a number. *)
Definition stats_endurance (stats : gmap string PyVal) : M Q :=
  v ← getitem stats "endurance";
  match v with
  | PNum q => ret q
  | PBool b => ret (if b then 1 else 0)%Q
  | _ => raise (TypeError "unsupported operand type(s) for -")
  end.

(** [detect_combat_state()] *)
Definition detect_combat_state (self : GameStateMonitor)
  : M (bool * GameStateMonitor) :=
  stats ← get_player_stats self;
  endurance ← stats_endurance stats;
  ret (combat_check self endurance).

(** [calibrate_ui_regions(resolution=(1920, 1080))] *)
Definition calibrate_ui_regions (self : GameStateMonitor) (resolution : Z * Z)
  : GameStateMonitor :=
  let scale_x := (inject_Z (fst resolution) / 1920)%Q in
  let scale_y := (inject_Z (snd resolution) / 1080)%Q in
  let calibrated_regions :=
    (fun r : Region =>
       let '(x, y, width, height) := r in
       (py_int (inject_Z x * scale_x), py_int (inject_Z y * scale_y),
        py_int (inject_Z width * scale_x), py_int (inject_Z height * scale_y)))
    <$> ui_regions self in
  {| ui_regions := calibrated_regions;
     color_ranges := color_ranges self;
     last_endurance := last_endurance self |}.




End Monitor.
End GameState.

(* ===================================================================== *)
(** ** player_attacks.py *)
(* ===================================================================== *)

Module PlayerAttacks.
Section Controller.
Context `{Host} `{Vision}.

Record AttackController : Type := mkAttacks {
  hotkeys : gmap Z string;
  attack_chains : gmap string (list (Z * Q));
  ability_timings : gmap Z Q
}.

(** [AttackController.__init__] *)
Definition init : AttackController :=
  {| hotkeys :=
       list_to_map [(1, "1"); (2, "2"); (3, "3"); (4, "4"); (5, "5");
                    (6, "6"); (7, "7"); (8, "8"); (9, "9")]%string;
     attack_chains :=
       list_to_map
         [("basic_combo", [(1, 1.2%Q); (2, 1.5%Q); (3, 2.0%Q)]);
          ("power_combo", [(4, 2.0%Q); (5, 2.5%Q); (6, 3.0%Q)]);
          ("aoe_combo", [(7, 2.5%Q); (8, 3.0%Q); (9, 1.0%Q)]);
          ("quick_strike", [(1, 0.8%Q); (2, 0.8%Q)]);
          ("heavy_attack", [(6, 3.5%Q)]);
          ("defensive", [(5, 2.0%Q); (3, 1.5%Q)]);
          ("ranged_combo", [(2, 1.0%Q); (4, 1.5%Q); (7, 2.0%Q)]);
          ("melee_combo", [(1, 1.2%Q); (3, 1.8%Q); (5, 2.2%Q)])];
     ability_timings :=
       list_to_map [(1, 1.2%Q); (2, 1.0%Q); (3, 1.8%Q); (4, 1.5%Q); (5, 2.2%Q);
                    (6, 3.5%Q); (7, 2.5%Q); (8, 3.0%Q); (9, 1.0%Q)] |}.

(** [use_ability(ability_number, wait_for_animation=True)] *)
Definition use_ability (self : AttackController)
    (ability_number : Z) (wait_for_animation : bool) : M unit :=
  match hotkeys self !! ability_number with
  | None =>
      raise (ValueError ("Invalid ability number: " +:+ pretty ability_number))
  | Some key =>
      pyautogui_press key;;
      if wait_for_animation then
        let wait_time := default 1.5%Q (ability_timings self !! ability_number) in
        time_sleep wait_time
      else ret tt
  end.

(** The [for ability_key, wait_time in chain] loop of [execute_attack_chain];
    with the interrupt policy on, each step first builds a fresh monitor and
    breaks out of the loop when the health read is below 20. *)
Fixpoint attack_loop (self : AttackController)
    (chain : list (Z * Q)) (interrupt_on_low_health : bool) : M unit :=
  match chain with
  | [] => ret tt
  | (ability_key, wait_time) :: rest =>
      low ← (if interrupt_on_low_health then
               health ← GameState.get_health_percentage GameState.init;
               ret (Qlt_bool health 20)
             else ret false);
      if (low : bool) then ret tt
      else
        use_ability self ability_key false;;
        time_sleep wait_time;;
        attack_loop self rest interrupt_on_low_health
  end.

(** [execute_attack_chain(chain_name, interrupt_on_low_health=False)] *)
Definition execute_attack_chain (self : AttackController)
    (chain_name : string) (interrupt_on_low_health : bool) : M unit :=
  match attack_chains self !! chain_name with
  | None => raise (ValueError ("Unknown attack chain: " +:+ chain_name))
  | Some chain => attack_loop self chain interrupt_on_low_health
  end.

(** [add_custom_chain(name, chain)] *)
Definition add_custom_chain (self : AttackController)
    (name : string) (chain : list (Z * Q)) : AttackController :=
  {| hotkeys := hotkeys self;
     attack_chains := <[name := chain]> (attack_chains self);
     ability_timings := ability_timings self |}.

(** [modify_ability_timing(ability_number, new_timing)] *)
Definition modify_ability_timing (self : AttackController)
    (ability_number : Z) (new_timing : Q) : AttackController :=
  {| hotkeys := hotkeys self;
     attack_chains := attack_chains self;
     ability_timings := <[ability_number := new_timing]> (ability_timings self) |}.

(** [custom_attack_sequence(sequence)] *)
Fixpoint custom_attack_sequence (self : AttackController)
    (sequence : list (Z * Q)) : M unit :=
  match sequence with
  | [] => ret tt
  | (ability_key, wait_time) :: rest =>
      use_ability self ability_key false;;
      time_sleep wait_time;;
      custom_attack_sequence self rest
  end.






(** [interrupt_current_attack()] *)
Definition interrupt_current_attack : M unit :=
  pyautogui_press "esc";; time_sleep 0.2%Q.

(** [burst_combo()], [aoe_clear()], [safe_attack()], [emergency_attack()] *)
Definition burst_combo (self : AttackController) : M unit :=
  execute_attack_chain self "power_combo" false.
Definition aoe_clear (self : AttackController) : M unit :=
  execute_attack_chain self "aoe_combo" false.
Definition safe_attack (self : AttackController) : M unit :=
  execute_attack_chain self "basic_combo" true.
Definition emergency_attack (self : AttackController) : M unit :=
  execute_attack_chain self "quick_strike" false.

(** [buff_rotation()] *)
Definition buff_rotation (self : AttackController) : M unit :=
  use_ability self 9 true;;
  time_sleep 1.0%Q;;
  use_ability self 8 true.

(** [target_and_attack(target_key='tab', attack_chain='basic_combo')] *)
Definition target_and_attack (self : AttackController)
    (target_key : string) (attack_chain : string) : M unit :=
  pyautogui_press target_key;;
  time_sleep 0.3%Q;;
  execute_attack_chain self attack_chain false.

(** [smart_attack_selection(enemy_count=1)] *)
Definition smart_attack_selection (self : AttackController) (enemy_count : Z)
  : M unit :=
  if enemy_count =? 1 then execute_attack_chain self "basic_combo" false
  else if enemy_count <=? 3 then execute_attack_chain self "ranged_combo" false
  else execute_attack_chain self "aoe_combo" false.

End Controller.
End PlayerAttacks.

(* ===================================================================== *)
(** ** player_movement.py *)
(* ===================================================================== *)

Module PlayerMovement.

Record MovementController : Type := mkMovement {
  keys : gmap string string
}.

(** [MovementController.__init__] *)
Definition init : MovementController :=
  {| keys := list_to_map
       [("forward", "w"); ("backward", "s"); ("strafe_left", "a");
        ("strafe_right", "d"); ("turn_left", "q"); ("turn_right", "e");
        ("jump", "space"); ("sprint", "r"); ("fly", "f")]%string |}.

(** The shape shared by the timed holds: key down, sleep, key up; the key
    is looked up once for the press and once for the release. *)
Definition hold (self : MovementController) (name : string) (duration : Q)
  : M unit :=
  k ← getitem (keys self) name;
  pyautogui_keyDown k;;
  time_sleep duration;;
  k' ← getitem (keys self) name;
  pyautogui_keyUp k'.

Definition move_forward (self : MovementController) (duration : Q) : M unit :=
  hold self "forward" duration.
Definition move_backward (self : MovementController) (duration : Q) : M unit :=
  hold self "backward" duration.
Definition strafe_left (self : MovementController) (duration : Q) : M unit :=
  hold self "strafe_left" duration.
Definition strafe_right (self : MovementController) (duration : Q) : M unit :=
  hold self "strafe_right" duration.
(** [duration = angle / 180.0] *)
Definition turn_left (self : MovementController) (angle : Q) : M unit :=
  hold self "turn_left" (angle / 180)%Q.
Definition turn_right (self : MovementController) (angle : Q) : M unit :=
  hold self "turn_right" (angle / 180)%Q.

(** [for _ in range(n): body] *)
Fixpoint repeat_m (n : nat) (body : M unit) : M unit :=
  match n with
  | O => ret tt
  | S n' => body;; repeat_m n' body
  end.

(** [circle_strafe_target(radius=10, duration=5.0, clockwise=True)] *)
Definition circle_strafe_target (self : MovementController)
    (radius : Q) (duration : Q) (clockwise : bool) : M unit :=
  let steps := py_int (duration * 10)%Q in
  if steps =? 0 then raise (ZeroDivisionError "float division by zero")
  else
    let step_duration := (duration / inject_Z steps)%Q in
    let turn_angle := (360 / inject_Z steps)%Q in
    repeat_m (Z.to_nat steps)
      (move_forward self (step_duration * 0.3)%Q;;
       (if clockwise then
          strafe_right self (step_duration * 0.4)%Q;;
          turn_right self turn_angle
        else
          strafe_left self (step_duration * 0.4)%Q;;
          turn_left self turn_angle);;
       time_sleep (step_duration * 0.3)%Q).




End PlayerMovement.

(* ===================================================================== *)
(** ** llm_integrations.py *)
(* ===================================================================== *)

(** The request that [call_nova_with_image] sends: the prompt and, when one
    was captured, the inline PNG; the inference parameters are constants. *)
Record Request : Type := mkRequest {
  req_prompt : string;
  req_image : option string
}.

(** The services behind the decision engine: the Bedrock client (the text of
    the response body, or the exception it raised), the [json] module
    ([None] stands for [JSONDecodeError]) and the PNG/base64 encoder used for
    the screenshot. *)
Class Remote : Type := {
  invoke_model : Request -> Result string;
  json_loads : string -> option PyVal;
  json_dumps : PyVal -> string;
  png_base64 : Image -> Result string
}.

Module Nova.

Definition dq : string := String (ascii_of_nat 34) EmptyString.
Definition nl : string := String (ascii_of_nat 10) EmptyString.

(** One entry of [decision_prompts]: the opening line of the template and
    its "Available Actions" list (name, description). *)
Record PromptTemplate : Type := mkTemplate {
  opening : string;
  available_actions : list (string * string)
}.

Definition combat_prompt : PromptTemplate :=
  {| opening :=
       "Analyze this City of Heroes game state and decide the best combat action:";
     available_actions :=
       [("attack", "Use basic attack combo");
        ("power_combo", "Use high-damage combo (costs more endurance)");
        ("aoe_combo", "Use area attack for multiple enemies");
        ("retreat", "Move away from danger");
        ("rest", "Recover endurance");
        ("move_forward", "Advance toward enemies");
        ("circle_strafe", "Tactical positioning")]%string |}.

Definition exploration_prompt : PromptTemplate :=
  {| opening :=
       "Analyze this City of Heroes exploration state and decide movement:";
     available_actions :=
       [("move_forward", "Continue exploring forward");
        ("turn_left", "Turn and explore left");
        ("turn_right", "Turn and explore right");
        ("patrol", "Execute patrol pattern");
        ("rest", "Recover health/endurance");
        ("search_enemies", "Look for targets")]%string |}.

Definition recovery_prompt : PromptTemplate :=
  {| opening := "Character needs recovery in City of Heroes:";
     available_actions :=
       [("rest", "Stay and recover");
        ("retreat", "Move to safer location");
        ("find_cover", "Seek protection");
        ("wait", "Wait for natural recovery")]%string |}.

(** [prompt_template.format(game_state=...)] (the indentation of the
    templates is not reproduced). *)
Definition format (t : PromptTemplate) (game_state : string) : string :=
  opening t +:+ nl +:+ nl +:+
  "Game State: " +:+ game_state +:+ nl +:+ nl +:+
  "Available Actions:" +:+ nl +:+
  String.concat ""
    (map (fun a : string * string => "- " +:+ a.1 +:+ ": " +:+ a.2 +:+ nl)
         (available_actions t)) +:+ nl +:+
  "Respond with ONLY a JSON object: {" +:+ dq +:+ "action" +:+ dq +:+ ": " +:+
  dq +:+ "action_name" +:+ dq +:+ ", " +:+ dq +:+ "reason" +:+ dq +:+ ": " +:+
  dq +:+ "brief explanation" +:+ dq +:+ "}".

Definition lift {A : Type} (r : Result A) : M A := fun w => (r, w).

(** [v[k]] for a string key. *)
Definition subscript (v : PyVal) (k : string) : Result PyVal :=
  match v with
  | PDict d => match d !! k with
               | Some x => Ok x
               | None => Raise (KeyError k)
               end
  | PList _ => Raise (TypeError "list indices must be integers or slices, not str")
  | PStr _ => Raise (TypeError "string indices must be integers, not 'str'")
  | _ => Raise (TypeError "object is not subscriptable")
  end.

(** [v[0]]; the keys of a decoded JSON object are strings, so [0] is never
    one of them. *)
Definition subscript0 (v : PyVal) : Result PyVal :=
  match v with
  | PList (x :: _) => Ok x
  | PList [] => Raise (IndexError "list index out of range")
  | PStr (String c _) => Ok (PStr (String c EmptyString))
  | PStr EmptyString => Raise (IndexError "string index out of range")
  | PDict _ => Raise (KeyError "0")
  | _ => Raise (TypeError "object is not subscriptable")
  end.

(** [v[k] = x] for a string key. *)
Definition setitem (v : PyVal) (k : string) (x : PyVal) : Result PyVal :=
  match v with
  | PDict d => Ok (PDict (<[k := x]> d))
  | PList _ => Raise (TypeError "list indices must be integers or slices, not str")
  | _ => Raise (TypeError "object does not support item assignment")
  end.

(** The dict [{"action": "rest", "reason": reason}]. *)
Definition rest_decision (reason : string) : PyVal :=
  PDict (<["action" := PStr "rest"]> (<["reason" := PStr reason]> ∅)).

(** [stats.get(key, fallback)] *)
Definition dict_get (d : gmap string PyVal) (k : string) (fallback : PyVal)
  : PyVal :=
  default fallback (d !! k).

(** [analyze_game_state(stats)] *)
Definition analyze_game_state (stats : gmap string PyVal) : Result string :=
  let health := dict_get stats "health" (PNum 100) in
  let endurance := dict_get stats "endurance" (PNum 100) in
  let in_combat := dict_get stats "in_combat" (PBool false) in
  let enemy_targeted := dict_get stats "enemy_targeted" (PBool false) in
  match lt_num health 30 with
  | Raise e => Raise e
  | Ok true => Ok "recovery"
  | Ok false =>
      match lt_num endurance 20 with
      | Raise e => Raise e
      | Ok true => Ok "recovery"
      | Ok false =>
          if truthy in_combat || truthy enemy_targeted then Ok "combat"
          else Ok "exploration"
      end
  end.

(** The notation of the source for the dispatcher's comparisons,
    [action == 'name']: only a string equal to the name compares equal. *)
Definition action_is (action : PyVal) (name : string) : bool :=
  match action with
  | PStr s => String.eqb s name
  | _ => false
  end.

(** The message content of the request: the image part is appended only
    under [if image_data:], that is for a non-empty payload. *)
Definition request_of (prompt : string) (image_data : option string) : Request :=
  {| req_prompt := prompt;
     req_image := match image_data with
                  | Some s => if String.eqb s "" then None else Some s
                  | None => None
                  end |}.

Section Engine.
Context `{Host} `{Vision} `{Remote}.

Record NovaGameplayAI : Type := mkAI {
  game_monitor : GameState.GameStateMonitor;
  decision_prompts : gmap string PromptTemplate
}.

(** [NovaGameplayAI.__init__] *)
Definition init : NovaGameplayAI :=
  {| game_monitor := GameState.init;
     decision_prompts :=
       <["combat" := combat_prompt]>
       (<["exploration" := exploration_prompt]>
       (<["recovery" := recovery_prompt]> ∅)) |}.

(** [json.loads(x)] on a value: text is decoded, anything that is not text
    raises [TypeError]. *)
Definition loads (x : PyVal) : Result PyVal :=
  match x with
  | PStr s => match json_loads s with
              | Some v => Ok v
              | None => Raise (JSONDecodeError "Expecting value")
              end
  | _ => Raise (TypeError "the JSON object must be str, bytes or bytearray")
  end.

(** Lines 84-114 of [call_nova_with_image]: build the request, invoke the
    model and dig the reply text out of the response envelope. *)
Definition fetch_response_text (prompt : string) (image_data : option string)
  : Result PyVal :=
  match invoke_model (request_of prompt image_data) with
  | Raise e => Raise e
  | Ok body =>
      match loads (PStr body) with
      | Raise e => Raise e
      | Ok envelope =>
          match subscript envelope "output" with
          | Raise e => Raise e
          | Ok output =>
          match subscript output "message" with
          | Raise e => Raise e
          | Ok message =>
          match subscript message "content" with
          | Raise e => Raise e
          | Ok content =>
          match subscript0 content with
          | Raise e => Raise e
          | Ok first => subscript first "text"
          end end end end
      end
  end.

(** [call_nova_with_image(prompt, image_data=None)]: the inner handler
    catches [JSONDecodeError] only, the outer one every exception. *)
Definition call_nova_with_image (prompt : string) (image_data : option string)
  : M PyVal :=
  try_except
    (response_text ← lift (fetch_response_text prompt image_data);
     try_except
       (lift (loads response_text))
       (fun e => match e with
                 | JSONDecodeError _ =>
                     ret (rest_decision "Failed to parse AI response")
                 | _ => raise e
                 end))
    (fun e => ret (rest_decision ("API error: " +:+ exn_str e))).

(** [get_screenshot_data()] *)
Definition get_screenshot_data (self : NovaGameplayAI) : M (option string) :=
  try_except
    (screenshot ← GameState.take_screenshot None;
     data ← lift (png_base64 screenshot);
     ret (Some data))
    (fun _ => ret None).

(** [make_gameplay_decision()]: the decision and the engine afterwards (its
    monitor remembers the endurance baseline). *)
Definition make_gameplay_decision (self : NovaGameplayAI)
  : M (PyVal * NovaGameplayAI) :=
  stats ← GameState.get_player_stats (game_monitor self);
  '(in_combat, monitor) ← GameState.detect_combat_state (game_monitor self);
  let self := {| game_monitor := monitor;
                 decision_prompts := decision_prompts self |} in
  let stats := <["in_combat" := PBool in_combat]> stats in
  enemy_targeted ← GameState.detect_enemy_target (game_monitor self);
  let stats := <["enemy_targeted" := PBool enemy_targeted]> stats in
  scenario ← lift (analyze_game_state stats);
  prompt_template ← getitem (decision_prompts self) scenario;
  let prompt := format prompt_template (json_dumps (PDict stats)) in
  screenshot_data ← get_screenshot_data self;
  decision ← call_nova_with_image prompt screenshot_data;
  decision ← lift (setitem decision "scenario" (PStr scenario));
  decision ← lift (setitem decision "game_state" (PDict stats));
  timestamp ← GameState.read_clock;
  decision ← lift (setitem decision "timestamp" (PNum timestamp));
  ret (decision, self).

(** [execute_decision(decision)] *)
Definition execute_decision (decision : gmap string PyVal) : M bool :=
  let action := dict_get decision "action" (PStr "rest") in
  try_except
    (let movement := PlayerMovement.init in
     let attacks := PlayerAttacks.init in
     if action_is action "attack" then
       PlayerAttacks.execute_attack_chain attacks "basic_combo" false;; ret true
     else if action_is action "power_combo" then
       PlayerAttacks.execute_attack_chain attacks "power_combo" false;; ret true
     else if action_is action "aoe_combo" then
       PlayerAttacks.execute_attack_chain attacks "aoe_combo" false;; ret true
     else if action_is action "retreat" then
       PlayerMovement.move_backward movement 2.0%Q;; ret true
     else if action_is action "rest" then
       time_sleep 3.0%Q;; ret true
     else if action_is action "move_forward" then
       PlayerMovement.move_forward movement 1.5%Q;; ret true
     else if action_is action "circle_strafe" then
       PlayerMovement.circle_strafe_target movement 8%Q 2.0%Q true;; ret true
     else if action_is action "turn_left" then
       PlayerMovement.turn_left movement 45%Q;; ret true
     else if action_is action "turn_right" then
       PlayerMovement.turn_right movement 45%Q;; ret true
     else if action_is action "patrol" then
       (* [MovementController] defines no [patrol_area] *)
       raise (AttributeError
         "'MovementController' object has no attribute 'patrol_area'")
     else if action_is action "search_enemies" then
       (* [AttackController] defines no [target_nearest_enemy] *)
       raise (AttributeError
         "'AttackController' object has no attribute 'target_nearest_enemy'")
     else if action_is action "find_cover" then
       PlayerMovement.move_backward movement 3.0%Q;; ret true
     else if action_is action "wait" then
       time_sleep 2.0%Q;; ret true
     else ret false)
    (fun _ => ret false).

End Engine.

(** The action names listed by the prompt of a scenario. *)
Definition allowed_actions (prompts : gmap string PromptTemplate)
    (scenario : string) : list string :=
  match prompts !! scenario with
  | Some t => map fst (available_actions t)
  | None => []
  end.

(** The names that the if-chain of [execute_decision] compares against. *)
Definition known_actions : list string :=
  ["attack"; "power_combo"; "aoe_combo"; "retreat"; "rest"; "move_forward";
   "circle_strafe"; "turn_left"; "turn_right"; "patrol"; "search_enemies";
   "find_cover"; "wait"]%string.

End Nova.

(* ===================================================================== *)
(** ** play_game.py: the session log *)
(* ===================================================================== *)

Module PlayGame.

(** One entry of [GameplayLogger.action_history]. *)
Record LogEntry : Type := mkEntry {
  timestamp : string;
  decision : PyVal;
  execution_success : bool;
  session_action_count : Z
}.

(** What [log_decision(decision, execution_success)] does to
    [action_history]; [now] is [datetime.now().isoformat()].  (The rewrite
    of the session file and the console line are not part of the embedding.) *)
Definition log_decision (action_history : list LogEntry)
    (now : string) (decision : PyVal) (execution_success : bool)
  : list LogEntry :=
  let log_entry :=
    {| timestamp := now;
       decision := decision;
       execution_success := execution_success;
       session_action_count := Z.of_nat (length action_history) + 1 |} in
  action_history ++ [log_entry].

(** [get_recent_actions(count=5)]:
    [self.action_history[-count:] if self.action_history else []]. *)
Definition get_recent_actions (action_history : list LogEntry) (count : Z)
  : list LogEntry :=
  match action_history with
  | [] => []
  | _ => py_slice action_history (- count) (Z.of_nat (length action_history))
  end.

End PlayGame.

(* ===================================================================== *)
(** ** Executable instances of the external interfaces *)
(* ===================================================================== *)

(** A decoder for JSON text in the way of [json.loads]: objects (a repeated
    key keeps its last value), arrays, strings with escapes, numbers with
    fraction and exponent, [true], [false], [null], blanks between tokens,
    no leading zeros, no control characters inside strings.  [NaN] and
    [Infinity], which Python also accepts, have no value in [Q] and are
    rejected here; a [\u] escape is stored as its UTF-8 bytes. *)
Module JsonRef.

Definition is_ws (c : ascii) : bool :=
  match nat_of_ascii c with
  | 32%nat | 9%nat | 10%nat | 13%nat => true
  | _ => false
  end.

Fixpoint skip_ws (s : string) : string :=
  match s with
  | String c rest => if is_ws c then skip_ws rest else s
  | EmptyString => s
  end.

Definition digit_of (c : ascii) : option Z :=
  let n := Z.of_nat (nat_of_ascii c) in
  if (48 <=? n) && (n <=? 57) then Some (n - 48) else None.

Definition hex_of (c : ascii) : option Z :=
  let n := Z.of_nat (nat_of_ascii c) in
  if (48 <=? n) && (n <=? 57) then Some (n - 48)
  else if (65 <=? n) && (n <=? 70) then Some (n - 55)
  else if (97 <=? n) && (n <=? 102) then Some (n - 87)
  else None.

(** Reads a run of digits: its value after [acc], how many were read and the
    text that follows. *)
Fixpoint digits (s : string) (acc : Z) (count : nat) : Z * nat * string :=
  match s with
  | String c rest =>
      match digit_of c with
      | Some d => digits rest (acc * 10 + d) (S count)
      | None => (acc, count, s)
      end
  | EmptyString => (acc, count, s)
  end.

Definition byte (n : Z) : ascii := ascii_of_nat (Z.to_nat n).

Definition utf8 (cp : Z) : string :=
  if cp <? 128 then String (byte cp) EmptyString
  else if cp <? 2048 then
    String (byte (192 + cp / 64)) (String (byte (128 + cp mod 64)) EmptyString)
  else
    String (byte (224 + cp / 4096))
      (String (byte (128 + (cp / 64) mod 64))
         (String (byte (128 + cp mod 64)) EmptyString)).

(** The integer part: a single [0] or a run of digits that does not start
    with [0]. *)
Definition int_part (s : string) : option (Z * string) :=
  match s with
  | String "0" rest => Some (0, rest)
  | _ => match digits s 0 0 with
         | (_, O, _) => None
         | (v, _, rest) => Some (v, rest)
         end
  end.

Definition frac_part (s : string) : option (Q * string) :=
  match s with
  | String "." rest =>
      match digits rest 0 0 with
      | (_, O, _) => None
      | (v, n, rest') => Some (inject_Z v / inject_Z (10 ^ Z.of_nat n), rest')%Q
      end
  | _ => Some (0%Q, s)
  end.

Definition exp_part (s : string) : option (Q * string) :=
  let power (neg : bool) (t : string) :=
    match digits t 0 0 with
    | (_, O, _) => None
    | (v, _, rest) =>
        Some (if neg then (1 / inject_Z (10 ^ v))%Q else inject_Z (10 ^ v), rest)
    end in
  match s with
  | String c rest =>
      if orb (Ascii.eqb c "e") (Ascii.eqb c "E") then
        match rest with
        | String "-" t => power true t
        | String "+" t => power false t
        | _ => power false rest
        end
      else Some (1%Q, s)
  | EmptyString => Some (1%Q, s)
  end.

Definition number (s : string) : option (Q * string) :=
  let '(neg, s1) := match s with
                    | String "-" rest => (true, rest)
                    | _ => (false, s)
                    end in
  '(i, s2) ← int_part s1;
  '(f, s3) ← frac_part s2;
  '(e, s4) ← exp_part s3;
  let magnitude := Qred ((inject_Z i + f) * e) in
  Some (if neg then Qred (- magnitude) else magnitude, s4).

(** The characters of a string after its opening quote, up to the closing
    one; [acc] holds what was read, last character first. *)
Fixpoint string_body (s : string) (acc : list ascii) : option (string * string) :=
  match s with
  | EmptyString => None
  | String c rest =>
      if Ascii.eqb c (ascii_of_nat 34) then
        Some (string_of_list_ascii (rev acc), rest)
      else if Ascii.eqb c (ascii_of_nat 92) then
        match rest with
        | String "u" (String a (String b (String c' (String d rest')))) =>
            match hex_of a, hex_of b, hex_of c', hex_of d with
            | Some x3, Some x2, Some x1, Some x0 =>
                let cp := ((x3 * 16 + x2) * 16 + x1) * 16 + x0 in
                string_body rest'
                  (rev (list_ascii_of_string (utf8 cp)) ++ acc)
            | _, _, _, _ => None
            end
        | String e rest' =>
            let plain (n : nat) := string_body rest' (ascii_of_nat n :: acc) in
            match nat_of_ascii e with
            | 34%nat => plain 34%nat     (* quote *)
            | 92%nat => plain 92%nat     (* backslash *)
            | 47%nat => plain 47%nat     (* slash *)
            | 98%nat => plain 8%nat      (* b *)
            | 102%nat => plain 12%nat    (* f *)
            | 110%nat => plain 10%nat    (* n *)
            | 114%nat => plain 13%nat    (* r *)
            | 116%nat => plain 9%nat     (* t *)
            | _ => None
            end
        | EmptyString => None
        end
      else if (nat_of_ascii c <? 32)%nat then None
      else string_body rest (c :: acc)
  end.

Section Items.
(** The decoder for one value, to be iterated inside arrays and objects. *)
Variable value : string -> option (PyVal * string).

(** After a value of an array: [,] and another value, or [\]]. *)
Fixpoint elements (n : nat) (s : string) (acc : list PyVal)
  : option (PyVal * string) :=
  match n with
  | O => None
  | S n' =>
      '(v, s1) ← value (skip_ws s);
      match skip_ws s1 with
      | String "," rest => elements n' rest (v :: acc)
      | String "]" rest => Some (PList (rev (v :: acc)), rest)
      | _ => None
      end
  end.

(** After [{] or [,] in an object: a key, [:], a value, then [,] or [}]. *)
Fixpoint members (n : nat) (s : string) (acc : gmap string PyVal)
  : option (PyVal * string) :=
  match n with
  | O => None
  | S n' =>
      match skip_ws s with
      | String c s1 =>
          if Ascii.eqb c (ascii_of_nat 34) then
            '(k, s2) ← string_body s1 [];
            match skip_ws s2 with
            | String ":" s3 =>
                '(v, s4) ← value (skip_ws s3);
                match skip_ws s4 with
                | String "," rest => members n' rest (<[k := v]> acc)
                | String "}" rest => Some (PDict (<[k := v]> acc), rest)
                | _ => None
                end
            | _ => None
            end
          else None
      | EmptyString => None
      end
  end.
End Items.

Definition literal (word : string) (v : PyVal) (s : string)
  : option (PyVal * string) :=
  if String.prefix word s
  then Some (v, String.substring (String.length word)
                  (String.length s - String.length word) s)
  else None.

(** One value at the head of [s] (no leading blanks). *)
Fixpoint value (fuel : nat) (s : string) : option (PyVal * string) :=
  match fuel with
  | O => None
  | S fuel' =>
      match s with
      | EmptyString => None
      | String c rest =>
          match nat_of_ascii c with
          | 123%nat =>                                   (* { *)
              match skip_ws rest with
              | String "}" rest' => Some (PDict ∅, rest')
              | _ => members (value fuel') fuel' rest ∅
              end
          | 91%nat =>                                    (* [ *)
              match skip_ws rest with
              | String "]" rest' => Some (PList [], rest')
              | _ => elements (value fuel') fuel' rest []
              end
          | 34%nat =>                                    (* quote *)
              '(str, rest') ← string_body rest [];
              Some (PStr str, rest')
          | 116%nat => literal "true" (PBool true) s
          | 102%nat => literal "false" (PBool false) s
          | 110%nat => literal "null" PNone s
          | _ => '(q, rest') ← number s; Some (PNum q, rest')
          end
      end
  end.

(** [json.loads]: one value, blanks around it, nothing after it. *)
Definition loads (s : string) : option PyVal :=
  '(v, rest) ← value (S (String.length s)) (skip_ws s);
  match skip_ws rest with
  | EmptyString => Some v
  | _ => None
  end.

End JsonRef.

(** Instances used to run the embedding on concrete inputs: a display that
    shows scripted frames, OpenCV's per-pixel conversions in their textbook
    form, and a remote endpoint that answers with a scripted body. *)
Module Sample.

(** [round(a / b)] for [b > 0]. *)
Definition div_round (a b : Z) : Z := (2 * a + b) / (2 * b).

(** 8-bit BGR to HSV with hue in [0, 180). *)
Definition hsv_of_bgr (p : Pixel) : Pixel :=
  let '(b, g, r) := p in
  let v := Z.max b (Z.max g r) in
  let m := Z.min b (Z.min g r) in
  let d := v - m in
  let s := if v =? 0 then 0 else div_round (255 * d) v in
  let deg :=
    if d =? 0 then 0
    else if v =? r then div_round (60 * (g - b)) d
    else if v =? g then 120 + div_round (60 * (b - r)) d
    else 240 + div_round (60 * (r - g)) d in
  let deg := if deg <? 0 then deg + 360 else deg in
  (deg / 2, s, v).

Definition gray_of_bgr (p : Pixel) : Z :=
  let '(b, g, r) := p in div_round (299 * r + 587 * g + 114 * b) 1000.

Definition within (lower upper : Triple) (p : Pixel) : Z :=
  let '(l0, l1, l2) := lower in
  let '(u0, u1, u2) := upper in
  let '(h, s, v) := p in
  if (l0 <=? h) && (h <=? u0) && (l1 <=? s) && (s <=? u1)
     && (l2 <=? v) && (v <=? u2)
  then 255 else 0.

(** A horizontal gradient detector in the place of Canny: a pixel is an edge
    when it differs from its right neighbour by more than [high]. *)
Fixpoint row_edges (high : Z) (row : list Z) : list Z :=
  match row with
  | a :: (b :: _) as rest =>
      (if high <? Z.abs (a - b) then 255 else 0) :: row_edges high rest
  | _ => map (fun _ => 0) row
  end.

#[export] Instance vision : Vision :=
  {| cvtColor_BGR2HSV := map (map hsv_of_bgr);
     cvtColor_BGR2GRAY := map (map gray_of_bgr);
     inRange := fun img lower upper => map (map (within lower upper)) img;
     Canny := fun gray low high => map (row_edges high) gray |}.

(** A display showing [frame n] at the [n]-th capture (a region capture is
    the frame cut to the region) and a clock reading [clock n]. *)
Definition host (frame : nat -> Image) (clock : nat -> Q) : Host :=
  {| pyautogui_screenshot := fun n region =>
       match region with
       | None => frame n
       | Some r => GameState.crop (frame n) r
       end;
     time_time := clock |}.

(** A [width] x [height] frame that is [ink] inside the rectangle
    [(x, y, w, h)] and black outside. *)
Definition panel (width height : nat) (rect : Region) (ink : Pixel) : Image :=
  let '(x, y, w, h) := rect in
  map (fun j =>
         map (fun i =>
                if (x <=? Z.of_nat i) && (Z.of_nat i <? x + w)
                   && (y <=? Z.of_nat j) && (Z.of_nat j <? y + h)
                then ink else (0, 0, 0))
             (seq 0 width))
      (seq 0 height).

Definition black (width height : nat) : Image :=
  panel width height (0, 0, 0, 0) (0, 0, 0).

(** Frames whose health bar (region [(50, 50, 200, 20)]) or endurance bar
    (region [(50, 80, 200, 20)]) is filled to [percent] with [ink] (an RGB
    colour: the capture is converted to BGR afterwards). *)
Definition health_frame (ink : Pixel) (percent : Z) : Image :=
  panel 250 70 (50, 50, 2 * percent, 20) ink.

Definition endurance_frame (percent : Z) : Image :=
  panel 250 100 (50, 80, 2 * percent, 20) (0, 0, 255).

Definition clock (n : nat) : Q := inject_Z (Z.of_nat n).

(** A display on which successive stats reads (three captures each) see the
    endurance bar at the successive [levels]. *)
Definition endurance_script (levels : list Z) : Host :=
  host (fun n => endurance_frame (nth (n / 3) levels 0)) clock.

(** A log entry numbered [n]. *)
Definition log_entry (n : Z) : PlayGame.LogEntry :=
  {| PlayGame.timestamp := "2024-01-01T10:00:00";
     PlayGame.decision := PNone;
     PlayGame.execution_success := true;
     PlayGame.session_action_count := n |}.

(** A display that shows a small black frame at every capture. *)
Definition idle : Host := host (fun _ => black 8 8) clock.

(** Text as a JSON string literal (quotes and backslashes escaped). *)
Fixpoint escape (s : string) : string :=
  match s with
  | EmptyString => EmptyString
  | String c rest =>
      if Ascii.eqb c (ascii_of_nat 34) || Ascii.eqb c (ascii_of_nat 92)
      then String (ascii_of_nat 92) (String c (escape rest))
      else String c (escape rest)
  end.

Definition quoted (s : string) : string := Nova.dq +:+ escape s +:+ Nova.dq.

(** The response body that carries [text] as the model's reply:
    {"output": {"message": {"content": [{"text": text}]}}}. *)
Definition envelope (text : string) : string :=
  "{" +:+ quoted "output" +:+ ": {" +:+ quoted "message" +:+ ": {" +:+
  quoted "content" +:+ ": [{" +:+ quoted "text" +:+ ": " +:+ quoted text +:+
  "}]}}}".


(** The reply {"action": action, "reason": reason}. *)
Definition reply (action reason : string) : string :=
  "{" +:+ quoted "action" +:+ ": " +:+ quoted action +:+ ", " +:+
  quoted "reason" +:+ ": " +:+ quoted reason +:+ "}".

Definition show_Q (q : Q) : string :=
  if (Qden q =? 1)%positive then pretty (Qnum q)
  else pretty (Qnum q) +:+ "/" +:+ pretty (Zpos (Qden q)).

(** A rendering of flat records (numbers, booleans, text), which is what
    the stats are; nested containers are elided. *)
Definition dumps (v : PyVal) : string :=
  let atom (x : PyVal) : string :=
    match x with
    | PNone => "null"
    | PBool b => if b then "true" else "false"
    | PNum q => show_Q q
    | PStr s => quoted s
    | PList _ => "[...]"
    | PDict _ => "{...}"
    end in
  match v with
  | PDict d =>
      "{" +:+ String.concat ", "
                (map (fun kv : string * PyVal => quoted kv.1 +:+ ": " +:+ atom kv.2)
                     (map_to_list d)) +:+ "}"
  | _ => atom v
  end.

(** An endpoint that answers every request with [answer]. *)
Definition remote (answer : Result string) : Remote :=
  {| invoke_model := fun _ => answer;
     json_loads := JsonRef.loads;
     json_dumps := dumps;
     png_base64 := fun _ => Ok "iVBORw0KGgo=" |}.

End Sample.

(* ===================================================================== *)
(** ** Vocabulary of the statements *)
(* ===================================================================== *)

(** A region with every coordinate halved, truncating toward zero. *)
Definition halve (r : Region) : Region :=
  let '(x, y, width, height) := r in
  (x ÷ 2, y ÷ 2, width ÷ 2, height ÷ 2).

(** [d] with the entry [k: v] added when [d] has no entry for [k]. *)
Definition fill_missing (k : string) (v : PyVal) (d : gmap string PyVal)
  : gmap string PyVal :=
  match d !! k with
  | Some _ => d
  | None => <[k := v]> d
  end.

(** A stats record completed with health 100, endurance 100 and both flags
    false wherever it lacks the entry. *)
Definition with_defaults (stats : gmap string PyVal) : gmap string PyVal :=
  fill_missing "health" (PNum 100)
    (fill_missing "endurance" (PNum 100)
       (fill_missing "in_combat" (PBool false)
          (fill_missing "enemy_targeted" (PBool false) stats))).

(** The stats record with the four entries that the classification reads. *)
Definition stats_of (health endurance : Q) (in_combat enemy_targeted : bool)
  : gmap string PyVal :=
  <["health" := PNum health]>
  (<["endurance" := PNum endurance]>
  (<["in_combat" := PBool in_combat]>
  (<["enemy_targeted" := PBool enemy_targeted]> ∅))).

(** The world after the input events [evs] on top of [w]. *)
Definition add_events (w : World) (evs : list Event) : World :=
  {| shots := shots w; ticks := ticks w; events := events w ++ evs |}.



(** The default decision: action "rest" and a non-empty reason, nothing else. *)
Definition default_decision (v : PyVal) : Prop :=
  exists reason : string,
    reason <> EmptyString /\
    v = PDict (<["action" := PStr "rest"]> (<["reason" := PStr reason]> ∅)).

(** The number of pixels of the region that fall in the colour range: the
    count that [extract_bar_percentage] takes from its mask. *)
Definition matched_pixels `{Vision}
    (image : Image) (color_range : ColorRange) (bar_region : Region) : Z :=
  countNonZero
    (inRange (cvtColor_BGR2HSV (GameState.crop image bar_region))
       color_range.1 color_range.2).

(** The world after [captures] more screen captures and [reads] more clock
    reads, the input untouched. *)
Definition bump (w : World) (captures reads : nat) : World :=
  {| shots := captures + shots w; ticks := reads + ticks w; events := events w |}.

(** A monitor that has the regions and colour ranges which its reads use. *)
Definition monitor_ready (self : GameState.GameStateMonitor) : Prop :=
  (forall name : string,
     In name ["health_bar"; "endurance_bar"; "experience_bar"; "target_info"] ->
     is_Some (GameState.ui_regions self !! name)) /\
  (forall name : string,
     In name ["health_green"; "health_red"; "endurance_blue";
              "experience_yellow"] ->
     is_Some (GameState.color_ranges self !! name)).



(** Values that [<] does not compare with a number. *)
Definition not_a_number (v : PyVal) : Prop :=
  match v with
  | PNum _ | PBool _ => False
  | _ => True
  end.

(** The histories that [log_decision] builds from the empty one. *)
Inductive logged : list PlayGame.LogEntry -> Prop :=
| logged_nil : logged []
| logged_entry (history : list PlayGame.LogEntry) (now : string)
    (decision : PyVal) (success : bool) :
    logged history ->
    logged (PlayGame.log_decision history now decision success).

(** The keys that are down after the events [evs], given those that were
    down before. *)
Fixpoint key_state (evs : list Event) (down : gset string) : gset string :=
  match evs with
  | [] => down
  | KeyDown k :: rest => key_state rest ({[k]} ∪ down)
  | KeyUp k :: rest => key_state rest (down ∖ {[k]})
  | _ :: rest => key_state rest down
  end.

(** The seconds slept in the events [evs]. *)
Fixpoint total_sleep (evs : list Event) : Q :=
  match evs with
  | [] => 0
  | Sleep d :: rest => d + total_sleep rest
  | _ :: rest => total_sleep rest
  end.

(** A computation that, whether it returns or raises, only adds events to
    the world and leaves no key down that was not down before. *)
Definition releases_keys {A : Type} (m : M A) : Prop :=
  forall w : World,
  exists evs : list Event,
    events (m w).2 = events w ++ evs /\
    forall down : gset string, key_state evs down ⊆ down.

(** The attack controllers that [add_custom_chain] and
    [modify_ability_timing] can make of the initial one. *)
Inductive configured : PlayerAttacks.AttackController -> Prop :=
| configured_init : configured PlayerAttacks.init
| configured_chain (c : PlayerAttacks.AttackController)
    (name : string) (chain : list (Z * Q)) :
    configured c -> configured (PlayerAttacks.add_custom_chain c name chain)
| configured_timing (c : PlayerAttacks.AttackController)
    (ability_number : Z) (new_timing : Q) :
    configured c ->
    configured (PlayerAttacks.modify_ability_timing c ability_number new_timing).

(* ===================================================================== *)
(** ** Properties *)
(* ===================================================================== *)

(** *** Numbers *)

Lemma Qlt_bool_iff (a b : Q) : Qlt_bool a b = true <-> (a < b)%Q.
Proof.
  unfold Qlt_bool. rewrite negb_true_iff. split.
  - intros Hle. apply Qnot_le_lt. intros Hba.
    apply Qle_bool_iff in Hba. congruence.
  - intros Hlt. destruct (Qle_bool b a) eqn:E; [|reflexivity].
    apply Qle_bool_iff in E. exfalso. exact (Qlt_not_le _ _ Hlt E).
Qed.

Lemma Qlt_bool_false_iff (a b : Q) : Qlt_bool a b = false <-> (b <= a)%Q.
Proof.
  unfold Qlt_bool. rewrite negb_false_iff. apply Qle_bool_iff.
Qed.

Lemma py_max_spec (a b : Q) : (py_max a b == Qmax a b)%Q.
Proof.
  unfold py_max. destruct (Qlt_bool a b) eqn:E.
  - apply Qlt_bool_iff in E. symmetry. apply Q.max_r. apply Qlt_le_weak, E.
  - apply Qlt_bool_false_iff in E. symmetry. apply Q.max_l, E.
Qed.

Lemma py_min_spec (a b : Q) : (py_min a b == Qmin a b)%Q.
Proof.
  unfold py_min. destruct (Qlt_bool b a) eqn:E.
  - apply Qlt_bool_iff in E. symmetry. apply Q.min_r. apply Qlt_le_weak, E.
  - apply Qlt_bool_false_iff in E. symmetry. apply Q.min_l, E.
Qed.

(** [min(100, max(0, p))] lies in [0, 100] whatever [p] is. *)
Lemma clamp_range (p : Q) : (0 <= py_min 100 (py_max 0 p) <= 100)%Q.
Proof.
  rewrite py_min_spec, py_max_spec. split.
  - apply Q.min_glb; [discriminate | apply Q.le_max_l].
  - apply Q.le_min_l.
Qed.


(** *** The effect monad *)

Lemma bind_Ok {A B : Type} (m : M A) (k : A -> M B) (w w1 : World) (a : A) :
  m w = (Ok a, w1) -> (m ≫= k) w = k a w1.
Proof. intros Hm. unfold mbind, M_bind, bind. rewrite Hm. reflexivity. Qed.



(** One step of a sequence whose first computation returns. *)
Tactic Notation "run_step" "by" tactic3(tac) :=
  erewrite bind_Ok by tac; cbv beta iota.

Lemma getitem_Some {V : Type} (d : gmap string V) (k : string) (v : V) (w : World) :
  d !! k = Some v -> getitem d k w = (Ok v, w).
Proof. intros Hd. unfold getitem. rewrite Hd. reflexivity. Qed.

(** *** game_state.py: the bar extractor and the health read *)



(** The health read, step by step: one capture, the two extractions over
    it, the larger of the two. *)
Lemma get_health_percentage_run `{Host} `{Vision}
    (self : GameState.GameStateMonitor) (w : World)
    (region : Region) (green red : ColorRange) :
  GameState.ui_regions self !! "health_bar" = Some region ->
  GameState.color_ranges self !! "health_green" = Some green ->
  GameState.color_ranges self !! "health_red" = Some red ->
  GameState.get_health_percentage self w
  = (Ok (py_max
           (GameState.extract_bar_percentage
              (cvtColor_RGB2BGR (pyautogui_screenshot (shots w) None)) green region)
           (GameState.extract_bar_percentage
              (cvtColor_RGB2BGR (pyautogui_screenshot (shots w) None)) red region)),
     {| shots := S (shots w); ticks := ticks w; events := events w |}).
Proof.
  intros Hregion Hgreen Hred.
  unfold GameState.get_health_percentage.
  run_step by reflexivity.
  run_step by (apply getitem_Some, Hregion).
  run_step by (apply getitem_Some, Hgreen).
  run_step by (apply getitem_Some, Hred).
  reflexivity.
Qed.

(** C7. The health read takes one capture and returns the larger of the
    green-range and the red-range extraction over that same image and the
    health-bar region: green 75 and red 0 give 75, green 0 and red 60 give 60. *)
Theorem get_health_percentage_max `{Host} `{Vision}
    (self : GameState.GameStateMonitor) (w : World)
    (region : Region) (green red : ColorRange) :
  GameState.ui_regions self !! "health_bar" = Some region ->
  GameState.color_ranges self !! "health_green" = Some green ->
  GameState.color_ranges self !! "health_red" = Some red ->
  let image := cvtColor_RGB2BGR (pyautogui_screenshot (shots w) None) in
  let green_health := GameState.extract_bar_percentage image green region in
  let red_health := GameState.extract_bar_percentage image red region in
  exists health,
    GameState.get_health_percentage self w
    = (Ok health, {| shots := S (shots w); ticks := ticks w;
                     events := events w |}) /\
    (health == Qmax green_health red_health)%Q /\
    ((green_health == 75)%Q -> (red_health == 0)%Q -> (health == 75)%Q) /\
    ((green_health == 0)%Q -> (red_health == 60)%Q -> (health == 60)%Q).
Proof.
  intros Hregion Hgreen Hred image green_health red_health.
  exists (py_max green_health red_health).
  split; [|split; [|split]].
  - apply get_health_percentage_run; assumption.
  - apply py_max_spec.
  - intros Hg Hr. rewrite py_max_spec, Hg, Hr. reflexivity.
  - intros Hg Hr. rewrite py_max_spec, Hg, Hr. reflexivity.
Qed.

Lemma get_health_percentage_max_witness :
  (exists health w',
     @GameState.get_health_percentage
       (Sample.host (fun _ => Sample.health_frame (0, 255, 0) 75) Sample.clock)
       Sample.vision GameState.init world0 = (Ok health, w') /\
     (health == 75)%Q) /\
  (exists health w',
     @GameState.get_health_percentage
       (Sample.host (fun _ => Sample.health_frame (255, 0, 0) 60) Sample.clock)
       Sample.vision GameState.init world0 = (Ok health, w') /\
     (health == 60)%Q).
Proof.
  split.
  - destruct (@get_health_percentage_max
                (Sample.host (fun _ => Sample.health_frame (0, 255, 0) 75)
                   Sample.clock)
                Sample.vision GameState.init world0
                (50, 50, 200, 20) ((40, 120, 70), (80, 255, 255))
                ((0, 120, 70), (10, 255, 255))
                eq_refl eq_refl eq_refl)
      as (health & Hrun & _ & Hgreen & _).
    exists health. eexists. split; [exact Hrun|].
    apply Hgreen; vm_compute; reflexivity.
  - destruct (@get_health_percentage_max
                (Sample.host (fun _ => Sample.health_frame (255, 0, 0) 60)
                   Sample.clock)
                Sample.vision GameState.init world0
                (50, 50, 200, 20) ((40, 120, 70), (80, 255, 255))
                ((0, 120, 70), (10, 255, 255))
                eq_refl eq_refl eq_refl)
      as (health & Hrun & _ & _ & Hred).
    exists health. eexists. split; [exact Hrun|].
    apply Hred; vm_compute; reflexivity.
Defined.

(** *** game_state.py: the combat heuristic *)

(** The first check seeds the baseline and reports no combat. *)
Lemma combat_check_first (self : GameState.GameStateMonitor) (endurance : Q) :
  GameState.last_endurance self = None ->
  fst (GameState.combat_check self endurance) = false /\
  GameState.last_endurance (snd (GameState.combat_check self endurance))
  = Some endurance.
Proof.
  intros Hlast. unfold GameState.combat_check. rewrite Hlast. split; reflexivity.
Qed.

(** A check against a baseline reports combat exactly when the endurance is
    more than 5 below the baseline; the baseline moves to the new reading
    only when no combat is reported. *)
Lemma combat_check_baseline (self : GameState.GameStateMonitor) (last endurance : Q) :
  GameState.last_endurance self = Some last ->
  (fst (GameState.combat_check self endurance) = true <-> (5 < last - endurance)%Q) /\
  GameState.last_endurance (snd (GameState.combat_check self endurance))
  = Some (if fst (GameState.combat_check self endurance) then last else endurance).
Proof.
  intros Hlast. unfold GameState.combat_check. rewrite Hlast.
  destruct (Qlt_bool 5 (last - endurance)) eqn:E; simpl.
  - split; [|exact Hlast]. split; [intros _|reflexivity].
    apply Qlt_bool_iff, E.
  - split; [|reflexivity]. split; [discriminate|].
    intros Hlt. apply Qlt_bool_iff in Hlt. congruence.
Qed.

(** The two-call sequences of the tests: 80 then 70 reports combat on the
    second call, 80 then 79 does not. *)
Lemma combat_check_two_calls :
  fst (GameState.combat_check (snd (GameState.combat_check GameState.init 80)) 70)
  = true /\
  fst (GameState.combat_check (snd (GameState.combat_check GameState.init 80)) 79)
  = false.
Proof. split; reflexivity. Qed.

(** On the display scripted with the levels 80, 70, 70, the endurance reads
    of three successive stats reads (captures 1, 4 and 7) are 80, 70 and 70. *)
Lemma endurance_script_reads :
  Forall2
    (fun (capture : nat) (level : Q) =>
       exists endurance : Q,
         fst (@GameState.get_endurance_percentage
                (Sample.endurance_script [80; 70; 70]) Sample.vision
                GameState.init {| shots := capture; ticks := 0; events := [] |})
         = Ok endurance /\
         (endurance == level)%Q)
    [1%nat; 4%nat; 7%nat] [80%Q; 70%Q; 70%Q].
Proof.
  repeat (constructor;
          [eexists; split; [vm_compute; reflexivity | vm_compute; reflexivity]|]).
  constructor.
Qed.


(** *** game_state.py: calibration *)

Lemma py_int_scale (x n : Z) (d : positive) :
  py_int (inject_Z x * (inject_Z n / (Z.pos d # 1))) = (x * n) ÷ Z.pos d.
Proof. unfold py_int. simpl. f_equal; lia. Qed.

Lemma scale_half_x (x : Z) : py_int (inject_Z x * (inject_Z 960 / 1920)) = x ÷ 2.
Proof.
  rewrite (py_int_scale x 960 1920).
  change 1920 with (2 * 960). apply Z.quot_mul_cancel_r; lia.
Qed.

Lemma scale_half_y (y : Z) : py_int (inject_Z y * (inject_Z 540 / 1080)) = y ÷ 2.
Proof.
  rewrite (py_int_scale y 540 1080).
  change 1080 with (2 * 540). apply Z.quot_mul_cancel_r; lia.
Qed.

Lemma calibrate_half_lookup (self : GameState.GameStateMonitor) (name : string) :
  GameState.ui_regions (GameState.calibrate_ui_regions self (960, 540)) !! name
  = halve <$> (GameState.ui_regions self !! name).
Proof.
  unfold GameState.calibrate_ui_regions. simpl GameState.ui_regions.
  rewrite lookup_fmap.
  destruct (GameState.ui_regions self !! name) as [[[[x y] width] height]|];
    [|reflexivity].
  simpl. unfold halve.
  rewrite !scale_half_x, !scale_half_y. reflexivity.
Qed.

(** Calibrating the initial monitor to 960x540 twice is not calibrating it
    once: the health bar ends at (12, 12, 50, 5), not at (25, 25, 100, 10). *)
Lemma calibrate_twice_differs :
  GameState.calibrate_ui_regions
    (GameState.calibrate_ui_regions GameState.init (960, 540)) (960, 540)
  <> GameState.calibrate_ui_regions GameState.init (960, 540).
Proof.
  intros Heq.
  apply (f_equal (fun m => GameState.ui_regions m !! "health_bar")) in Heq.
  vm_compute in Heq. discriminate.
Qed.

(** C4 (amended).  Calibration rescales the regions that are stored at the
    time of the call and stores the result under the same names: calibrating
    to half the reference resolution halves the x, y, width and height of
    every stored region (truncating), leaves the colour ranges and the
    endurance baseline alone, and calibrating a second time halves the
    already halved regions again; at the reference resolution itself the
    regions do not change. *)
Theorem calibrate_ui_regions_half (self : GameState.GameStateMonitor) :
  let once := GameState.calibrate_ui_regions self (960, 540) in
  let twice := GameState.calibrate_ui_regions once (960, 540) in
  (forall name : string,
     GameState.ui_regions once !! name
     = halve <$> (GameState.ui_regions self !! name)) /\
  (forall name : string,
     GameState.ui_regions twice !! name
     = halve <$> (halve <$> (GameState.ui_regions self !! name))) /\
  GameState.color_ranges once = GameState.color_ranges self /\
  GameState.last_endurance once = GameState.last_endurance self /\
  GameState.calibrate_ui_regions self (1920, 1080) = self.
Proof.
  cbv zeta. split; [|split; [|split; [|split]]].
  - intros name. apply calibrate_half_lookup.
  - intros name. rewrite !calibrate_half_lookup. reflexivity.
  - reflexivity.
  - reflexivity.
  - destruct self as [regions ranges last].
    unfold GameState.calibrate_ui_regions. simpl. f_equal.
    apply map_eq. intros name. rewrite lookup_fmap.
    destruct (regions !! name) as [[[[x y] width] height]|]; [|reflexivity].
    simpl.
    rewrite !(py_int_scale _ 1920 1920), !(py_int_scale _ 1080 1080).
    rewrite !Z.quot_mul by lia. reflexivity.
Qed.

(** *** llm_integrations.py: scenario classification *)

(** C2. On a stats record with numeric health and endurance and boolean
    flags the classification always returns, and by first match: "recovery"
    when health < 30 or endurance < 20, whatever the flags; otherwise
    "combat" when one of the flags holds; otherwise "exploration". *)
Theorem analyze_game_state_priority
    (stats : gmap string PyVal) (health endurance : Q)
    (in_combat enemy_targeted : bool) :
  stats !! "health" = Some (PNum health) ->
  stats !! "endurance" = Some (PNum endurance) ->
  stats !! "in_combat" = Some (PBool in_combat) ->
  stats !! "enemy_targeted" = Some (PBool enemy_targeted) ->
  ((health < 30 \/ endurance < 20)%Q ->
   Nova.analyze_game_state stats = Ok "recovery") /\
  (~ (health < 30 \/ endurance < 20)%Q ->
   in_combat = true \/ enemy_targeted = true ->
   Nova.analyze_game_state stats = Ok "combat") /\
  (~ (health < 30 \/ endurance < 20)%Q ->
   in_combat = false -> enemy_targeted = false ->
   Nova.analyze_game_state stats = Ok "exploration") /\
  (exists scenario,
     Nova.analyze_game_state stats = Ok scenario /\
     In scenario ["recovery"; "combat"; "exploration"]).
Proof.
  intros Hh He Hc Ht.
  unfold Nova.analyze_game_state, Nova.dict_get.
  rewrite Hh, He, Hc, Ht. simpl.
  destruct (Qlt_bool health 30) eqn:E1.
  { apply Qlt_bool_iff in E1.
    repeat split; try (intros Hn; exfalso; apply Hn; left; exact E1).
    exists "recovery". split; [reflexivity | simpl; auto]. }
  apply Qlt_bool_false_iff in E1.
  destruct (Qlt_bool endurance 20) eqn:E2.
  { apply Qlt_bool_iff in E2.
    repeat split; try (intros Hn; exfalso; apply Hn; right; exact E2).
    exists "recovery". split; [reflexivity | simpl; auto]. }
  apply Qlt_bool_false_iff in E2.
  assert (Hnot : ~ (health < 30 \/ endurance < 20)%Q).
  { intros [Hlt|Hlt]; eapply Qlt_not_le; eauto. }
  split; [intros Hlow; contradiction|].
  split; [|split].
  - intros _ [-> | ->]; [reflexivity|].
    destruct in_combat; reflexivity.
  - intros _ -> ->. reflexivity.
  - destruct in_combat, enemy_targeted; simpl;
      eexists; (split; [reflexivity | simpl; auto]).
Qed.

Lemma analyze_game_state_priority_witness :
  Nova.analyze_game_state (stats_of 20 50 true true) = Ok "recovery" /\
  Nova.analyze_game_state (stats_of 80 80 true false) = Ok "combat" /\
  Nova.analyze_game_state (stats_of 80 80 false false) = Ok "exploration".
Proof.
  split; [|split].
  - apply (analyze_game_state_priority (stats_of 20 50 true true) 20 50
             true true eq_refl eq_refl eq_refl eq_refl).
    left. reflexivity.
  - apply (analyze_game_state_priority (stats_of 80 80 true false) 80 80
             true false eq_refl eq_refl eq_refl eq_refl).
    + intros [Hlt|Hlt]; vm_compute in Hlt; discriminate.
    + left. reflexivity.
  - apply (analyze_game_state_priority (stats_of 80 80 false false) 80 80
             false false eq_refl eq_refl eq_refl eq_refl).
    + intros [Hlt|Hlt]; vm_compute in Hlt; discriminate.
    + reflexivity.
    + reflexivity.
Defined.

Lemma dict_get_fill_same (k : string) (v : PyVal) (d : gmap string PyVal) :
  Nova.dict_get (fill_missing k v d) k v = Nova.dict_get d k v.
Proof.
  unfold Nova.dict_get, fill_missing.
  destruct (d !! k) eqn:E; [rewrite E; reflexivity|].
  rewrite lookup_insert_eq. reflexivity.
Qed.

Lemma dict_get_fill_other (k k' : string) (v x : PyVal) (d : gmap string PyVal) :
  k <> k' ->
  Nova.dict_get (fill_missing k v d) k' x = Nova.dict_get d k' x.
Proof.
  intros Hne. unfold Nova.dict_get, fill_missing.
  destruct (d !! k); [reflexivity|].
  rewrite lookup_insert_ne by exact Hne. reflexivity.
Qed.

(** C10. The classification reads a missing entry as health 100, endurance
    100, not in combat, no enemy targeted: it gives on every stats record
    what it gives on the record completed with these values, and the empty
    record classifies as "exploration". *)
Theorem analyze_game_state_defaults (stats : gmap string PyVal) :
  Nova.analyze_game_state stats = Nova.analyze_game_state (with_defaults stats) /\
  Nova.analyze_game_state ∅ = Ok "exploration".
Proof.
  split; [|reflexivity].
  unfold Nova.analyze_game_state, with_defaults.
  repeat (rewrite dict_get_fill_same
          || rewrite dict_get_fill_other by discriminate).
  reflexivity.
Qed.

(** *** player_attacks.py: abilities and attack chains *)

Lemma add_events_nil (w : World) : add_events w [] = w.
Proof. destruct w. unfold add_events. simpl. rewrite app_nil_r. reflexivity. Qed.

Lemma add_events_app (w : World) (a b : list Event) :
  add_events (add_events w a) b = add_events w (a ++ b).
Proof. unfold add_events. simpl. rewrite app_assoc. reflexivity. Qed.

Lemma emit_run (ev : Event) (w : World) : emit ev w = (Ok tt, add_events w [ev]).
Proof. reflexivity. Qed.

Section Attacks.
Context `{Host} `{Vision}.
Variable self : PlayerAttacks.AttackController.





End Attacks.



(** *** llm_integrations.py: the dispatcher *)

Lemma action_is_other (action : PyVal) (name : string) :
  action <> PStr name -> Nova.action_is action name = false.
Proof.
  intros Hne. destruct action; try reflexivity. simpl.
  apply String.eqb_neq. intros ->. apply Hne. reflexivity.
Qed.

(** C8. When the action of a decision (["rest"] if the decision carries
    none) is none of the thirteen names that the dispatcher knows,
    [execute_decision] returns [False], raises nothing and leaves the world
    as it was: no key press, key down or key up, and no sleep either. *)
Theorem execute_decision_unknown_action `{Host} `{Vision}
    (decision : gmap string PyVal) (w : World) :
  (forall name : string,
     In name Nova.known_actions ->
     Nova.dict_get decision "action" (PStr "rest") <> PStr name) ->
  Nova.execute_decision decision w = (Ok false, w).
Proof.
  intros Hunknown.
  unfold Nova.execute_decision, try_except.
  repeat (rewrite action_is_other;
          [|apply Hunknown; unfold Nova.known_actions; simpl; tauto]).
  reflexivity.
Qed.

Lemma execute_decision_unknown_action_witness :
  @Nova.execute_decision Sample.idle Sample.vision
    (<["action" := PStr "dance"]> (<["reason" := PStr "festive"]> ∅)) world0
  = (Ok false, world0) /\
  @Nova.execute_decision Sample.idle Sample.vision
    (<["action" := PNum 7]> ∅) world0
  = (Ok false, world0).
Proof.
  split.
  - apply (@execute_decision_unknown_action Sample.idle Sample.vision).
    intros name Hname. vm_compute in Hname.
    repeat (destruct Hname as [<- | Hname]; [discriminate|]).
    contradiction.
  - apply (@execute_decision_unknown_action Sample.idle Sample.vision).
    intros name _. discriminate.
Defined.

(** *** llm_integrations.py: the inference call *)

Section Inference.
Context `{Remote}.
Variables (prompt : string) (image_data : option string) (w : World).

Lemma call_nova_fetch_failed (e : Exn) :
  Nova.fetch_response_text prompt image_data = Raise e ->
  Nova.call_nova_with_image prompt image_data w
  = (Ok (Nova.rest_decision ("API error: " +:+ exn_str e)), w).
Proof.
  intros Hfetch.
  unfold Nova.call_nova_with_image, try_except, mbind, M_bind, bind, Nova.lift.
  rewrite Hfetch. reflexivity.
Qed.

Lemma call_nova_parse_failed (s : string) :
  Nova.fetch_response_text prompt image_data = Ok (PStr s) ->
  json_loads s = None ->
  Nova.call_nova_with_image prompt image_data w
  = (Ok (Nova.rest_decision "Failed to parse AI response"), w).
Proof.
  intros Hfetch Hparse.
  unfold Nova.call_nova_with_image, try_except, mbind, M_bind, bind, Nova.lift.
  rewrite Hfetch. simpl. rewrite Hparse. reflexivity.
Qed.


(** The call returns a value in every case and touches nothing in the world. *)
Lemma call_nova_returns :
  exists v, Nova.call_nova_with_image prompt image_data w = (Ok v, w).
Proof.
  unfold Nova.call_nova_with_image, try_except, mbind, M_bind, bind, Nova.lift.
  destruct (Nova.fetch_response_text prompt image_data) as [text|e];
    [|eexists; reflexivity].
  destruct text as [| | |s| |]; simpl; try (eexists; reflexivity).
  destruct (json_loads s); eexists; reflexivity.
Qed.

Lemma invoke_failed_fetch_failed (e : Exn) :
  invoke_model (Nova.request_of prompt image_data) = Raise e ->
  Nova.fetch_response_text prompt image_data = Raise e.
Proof.
  intros Hinvoke. unfold Nova.fetch_response_text. rewrite Hinvoke. reflexivity.
Qed.

End Inference.

Lemma rest_decision_default (reason : string) :
  reason <> EmptyString -> default_decision (Nova.rest_decision reason).
Proof. intros Hne. exists reason. split; [exact Hne | reflexivity]. Qed.

(** C1. A failed call (the client raises, or the response envelope cannot be
    decoded or lacks the reply text) and a failed parse (the reply text is
    not JSON) both make [call_nova_with_image] return the default decision,
    action "rest" with a non-empty reason; and the function returns a value,
    never an exception, whatever the endpoint answers. *)
Theorem call_nova_with_image_default `{Remote}
    (prompt : string) (image_data : option string) (w : World) :
  (forall e : Exn,
     invoke_model (Nova.request_of prompt image_data) = Raise e ->
     exists v, Nova.call_nova_with_image prompt image_data w = (Ok v, w) /\
               default_decision v) /\
  (forall e : Exn,
     Nova.fetch_response_text prompt image_data = Raise e ->
     exists v, Nova.call_nova_with_image prompt image_data w = (Ok v, w) /\
               default_decision v) /\
  (forall s : string,
     Nova.fetch_response_text prompt image_data = Ok (PStr s) ->
     json_loads s = None ->
     exists v, Nova.call_nova_with_image prompt image_data w = (Ok v, w) /\
               default_decision v) /\
  (exists v, Nova.call_nova_with_image prompt image_data w = (Ok v, w)).
Proof.
  split; [|split; [|split]].
  - intros e Hinvoke. eexists. split.
    + apply call_nova_fetch_failed, invoke_failed_fetch_failed, Hinvoke.
    + apply rest_decision_default. discriminate.
  - intros e Hfetch. eexists. split.
    + apply call_nova_fetch_failed, Hfetch.
    + apply rest_decision_default. discriminate.
  - intros s Hfetch Hparse. eexists. split.
    + eapply call_nova_parse_failed; eassumption.
    + apply rest_decision_default. discriminate.
  - apply call_nova_returns.
Qed.

Lemma call_nova_with_image_default_witness :
  (exists v,
     @Nova.call_nova_with_image
       (Sample.remote (Raise (ClientError "connection timed out")))
       "prompt" None world0 = (Ok v, world0) /\
     default_decision v) /\
  (exists v,
     @Nova.call_nova_with_image
       (Sample.remote (Ok (Sample.envelope "I would rest now.")))
       "prompt" None world0 = (Ok v, world0) /\
     default_decision v).
Proof.
  split.
  - apply (@call_nova_with_image_default
             (Sample.remote (Raise (ClientError "connection timed out")))
             "prompt" None world0)
      with (e := ClientError "connection timed out").
    reflexivity.
  - apply (@call_nova_with_image_default
             (Sample.remote (Ok (Sample.envelope "I would rest now.")))
             "prompt" None world0)
      with (s := "I would rest now."%string).
    + vm_compute. reflexivity.
    + vm_compute. reflexivity.
Defined.

(** *** llm_integrations.py: the decision engine *)









(* ===================================================================== *)
(** ** Further properties *)
(* ===================================================================== *)

(** *** game_state.py: the bar extractor *)

Lemma py_max_zero_nonneg (p : Q) : (0 <= p)%Q -> py_max 0 p = p \/ (p == 0)%Q.
Proof.
  intros Hp. unfold py_max. destruct (Qlt_bool 0 p) eqn:E; [left; reflexivity|].
  right. apply Qlt_bool_false_iff in E. apply Qle_antisym; assumption.
Qed.

(** The ratio that the extractor computes, as a fraction of integers. *)
Lemma ratio_percent (n area : Z) :
  0 < area ->
  (inject_Z n / inject_Z area * 100 == (100 * n) # Z.to_pos area)%Q.
Proof.
  intros Harea. destruct area as [|a|a]; try lia.
  unfold Qeq, Qdiv, Qmult, Qinv, inject_Z. simpl. lia.
Qed.

Lemma ratio_percent_le (n m area : Z) :
  0 < area -> n <= m ->
  (inject_Z n / inject_Z area * 100 <= inject_Z m / inject_Z area * 100)%Q.
Proof.
  intros Harea Hnm. rewrite !ratio_percent by exact Harea.
  unfold Qle. simpl. nia.
Qed.

Lemma clamp_monotone (p q : Q) :
  (p <= q)%Q ->
  (py_min 100 (py_max 0 p) <= py_min 100 (py_max 0 q))%Q.
Proof.
  intros Hpq. rewrite !py_min_spec, !py_max_spec.
  apply Q.min_le_compat_l, Q.max_le_compat_l, Hpq.
Qed.

(** X1. Over one region, more pixels in the colour range never give a lower
    reading: the reading is monotone in the count of matched pixels. *)
Theorem extract_bar_percentage_monotone `{Vision}
    (image1 image2 : Image) (range1 range2 : ColorRange) (bar_region : Region) :
  matched_pixels image1 range1 bar_region
  <= matched_pixels image2 range2 bar_region ->
  (GameState.extract_bar_percentage image1 range1 bar_region
   <= GameState.extract_bar_percentage image2 range2 bar_region)%Q.
Proof.
  unfold matched_pixels, GameState.extract_bar_percentage.
  destruct bar_region as [[[x y] width] height].
  destruct range1 as [lower1 upper1], range2 as [lower2 upper2]. simpl.
  intros Hcount. destruct (0 <? width * height) eqn:Harea.
  - apply clamp_monotone, ratio_percent_le; [lia | exact Hcount].
  - apply Qle_refl.
Qed.

Lemma extract_bar_percentage_monotone_witness :
  Qle
    (@GameState.extract_bar_percentage Sample.vision
       (Sample.panel 4 1 (0, 0, 1, 1) (0, 255, 0))
       ((40, 120, 70), (80, 255, 255)) (0, 0, 4, 1))
    (@GameState.extract_bar_percentage Sample.vision
       (Sample.panel 4 1 (0, 0, 3, 1) (0, 255, 0))
       ((40, 120, 70), (80, 255, 255)) (0, 0, 4, 1)).
Proof.
  apply (@extract_bar_percentage_monotone Sample.vision).
  vm_compute. discriminate.
Defined.



(** *** game_state.py: cropping *)

Lemma py_slice_length {A : Type} (l : list A) (start stop : Z) :
  0 <= start -> start <= stop ->
  Z.of_nat (length (py_slice l start stop))
  = Z.min stop (Z.of_nat (length l)) - Z.min start (Z.of_nat (length l)).
Proof.
  intros Hstart Hstop. unfold py_slice, slice_bound.
  destruct (start <? 0) eqn:E1; [lia|].
  destruct (stop <? 0) eqn:E2; [lia|].
  rewrite length_take, length_drop. lia.
Qed.

(** X3. Cropping clips and never fails: for a region with non-negative
    origin and size the crop has at most [height] rows of at most [width]
    pixels, and exactly [height] rows of exactly [width] pixels when the
    region lies inside the image. *)
Theorem crop_shape (image : Image) (x y width height : Z) :
  0 <= x -> 0 <= y -> 0 <= width -> 0 <= height ->
  let cropped := GameState.crop image (x, y, width, height) in
  Z.of_nat (length cropped) <= height /\
  Forall (fun row => Z.of_nat (length row) <= width) cropped /\
  (y + height <= Z.of_nat (length image) ->
   Forall (fun row => x + width <= Z.of_nat (length row)) image ->
   Z.of_nat (length cropped) = height /\
   Forall (fun row => Z.of_nat (length row) = width) cropped).
Proof.
  intros Hx Hy Hw Hh. cbv zeta. unfold GameState.crop.
  split; [|split].
  - rewrite length_map, py_slice_length by lia. lia.
  - apply Forall_map, Forall_forall. intros row _. cbv beta.
    rewrite py_slice_length by lia. lia.
  - intros Hrows Hcols. split.
    + rewrite length_map, py_slice_length by lia. lia.
    + apply Forall_map.
      assert (Hsub : Forall (fun row => x + width <= Z.of_nat (length row))
                       (py_slice image y (y + height))).
      { unfold py_slice. apply Forall_take, Forall_drop, Hcols. }
      eapply Forall_impl; [exact Hsub|]. intros row Hrow. cbv beta in *.
      rewrite py_slice_length by lia. lia.
Qed.

Lemma crop_shape_witness :
  Z.of_nat (length (GameState.crop (Sample.black 8 8) (2, 3, 4, 2))) = 2 /\
  Z.of_nat (length (GameState.crop (Sample.black 8 8) (6, 7, 4, 2))) <= 2.
Proof.
  split.
  - apply (crop_shape (Sample.black 8 8) 2 3 4 2); try lia.
    + vm_compute. discriminate.
    + vm_compute. repeat constructor; discriminate.
  - apply (crop_shape (Sample.black 8 8) 6 7 4 2); lia.
Defined.

(** *** game_state.py: the stats read *)

Lemma is_Some_lookup {K V : Type} `{Countable K} (m : gmap K V) (k : K) :
  is_Some (m !! k) -> exists v, m !! k = Some v.
Proof. intros [v Hv]. exists v. exact Hv. Qed.

Lemma py_max_range (a b : Q) :
  (0 <= a <= 100)%Q -> (0 <= b <= 100)%Q -> (0 <= py_max a b <= 100)%Q.
Proof.
  intros Ha Hb. unfold py_max. destruct (Qlt_bool a b); assumption.
Qed.

Lemma extract_range `{Vision} (image : Image) (color_range : ColorRange)
    (bar_region : Region) :
  (0 <= GameState.extract_bar_percentage image color_range bar_region <= 100)%Q.
Proof.
  unfold GameState.extract_bar_percentage.
  destruct bar_region as [[[x y] width] height], color_range as [lower upper].
  destruct (0 <? width * height).
  - apply clamp_range.
  - split; discriminate.
Qed.

Lemma get_endurance_percentage_run `{Host} `{Vision}
    (self : GameState.GameStateMonitor) (w : World)
    (region : Region) (blue : ColorRange) :
  GameState.ui_regions self !! "endurance_bar" = Some region ->
  GameState.color_ranges self !! "endurance_blue" = Some blue ->
  GameState.get_endurance_percentage self w
  = (Ok (GameState.extract_bar_percentage
           (cvtColor_RGB2BGR (pyautogui_screenshot (shots w) None)) blue region),
     bump w 1 0).
Proof.
  intros Hregion Hblue. unfold GameState.get_endurance_percentage.
  run_step by reflexivity.
  run_step by (apply getitem_Some, Hblue).
  run_step by (apply getitem_Some, Hregion).
  reflexivity.
Qed.

Lemma get_experience_percentage_run `{Host} `{Vision}
    (self : GameState.GameStateMonitor) (w : World)
    (region : Region) (yellow : ColorRange) :
  GameState.ui_regions self !! "experience_bar" = Some region ->
  GameState.color_ranges self !! "experience_yellow" = Some yellow ->
  GameState.get_experience_percentage self w
  = (Ok (GameState.extract_bar_percentage
           (cvtColor_RGB2BGR (pyautogui_screenshot (shots w) None)) yellow region),
     bump w 1 0).
Proof.
  intros Hregion Hyellow. unfold GameState.get_experience_percentage.
  run_step by reflexivity.
  run_step by (apply getitem_Some, Hyellow).
  run_step by (apply getitem_Some, Hregion).
  reflexivity.
Qed.

Lemma monitor_ready_lookups (self : GameState.GameStateMonitor) :
  monitor_ready self ->
  exists (r1 r2 r3 r4 : Region) (c1 c2 c3 c4 : ColorRange),
    GameState.ui_regions self !! "health_bar" = Some r1 /\
    GameState.ui_regions self !! "endurance_bar" = Some r2 /\
    GameState.ui_regions self !! "experience_bar" = Some r3 /\
    GameState.ui_regions self !! "target_info" = Some r4 /\
    GameState.color_ranges self !! "health_green" = Some c1 /\
    GameState.color_ranges self !! "health_red" = Some c2 /\
    GameState.color_ranges self !! "endurance_blue" = Some c3 /\
    GameState.color_ranges self !! "experience_yellow" = Some c4.
Proof.
  intros [Hregions Hranges].
  assert (Hr1 : is_Some (GameState.ui_regions self !! "health_bar"))
    by (apply Hregions; simpl; auto 10).
  assert (Hr2 : is_Some (GameState.ui_regions self !! "endurance_bar"))
    by (apply Hregions; simpl; auto 10).
  assert (Hr3 : is_Some (GameState.ui_regions self !! "experience_bar"))
    by (apply Hregions; simpl; auto 10).
  assert (Hr4 : is_Some (GameState.ui_regions self !! "target_info"))
    by (apply Hregions; simpl; auto 10).
  assert (Hc1 : is_Some (GameState.color_ranges self !! "health_green"))
    by (apply Hranges; simpl; auto 10).
  assert (Hc2 : is_Some (GameState.color_ranges self !! "health_red"))
    by (apply Hranges; simpl; auto 10).
  assert (Hc3 : is_Some (GameState.color_ranges self !! "endurance_blue"))
    by (apply Hranges; simpl; auto 10).
  assert (Hc4 : is_Some (GameState.color_ranges self !! "experience_yellow"))
    by (apply Hranges; simpl; auto 10).
  destruct Hr1 as [r1 Hr1], Hr2 as [r2 Hr2], Hr3 as [r3 Hr3], Hr4 as [r4 Hr4],
    Hc1 as [c1 Hc1], Hc2 as [c2 Hc2], Hc3 as [c3 Hc3], Hc4 as [c4 Hc4].
  exists r1, r2, r3, r4, c1, c2, c3, c4. repeat split; assumption.
Qed.

(** The stats read of a ready monitor, step by step. *)
Lemma get_player_stats_run `{Host} `{Vision}
    (self : GameState.GameStateMonitor) (w : World) :
  monitor_ready self ->
  exists health endurance experience : Q,
    GameState.get_player_stats self w
    = (Ok (<["health" := PNum health]>
           (<["endurance" := PNum endurance]>
           (<["experience" := PNum experience]>
           (<["timestamp" := PNum (time_time (ticks w))]> ∅)))),
       bump w 3 1) /\
    (0 <= health <= 100)%Q /\ (0 <= endurance <= 100)%Q /\
    (0 <= experience <= 100)%Q.
Proof.
  intros Hready.
  destruct (monitor_ready_lookups self Hready)
    as (r1 & r2 & r3 & r4 & c1 & c2 & c3 & c4
        & Hr1 & Hr2 & Hr3 & Hr4 & Hc1 & Hc2 & Hc3 & Hc4).
  eexists _, _, _. split; [|split; [|split]].
  - unfold GameState.get_player_stats.
    run_step by (apply (get_health_percentage_run self w r1 c1 c2); assumption).
    run_step by (apply (get_endurance_percentage_run self _ r2 c3); assumption).
    run_step by (apply (get_experience_percentage_run self _ r3 c4); assumption).
    run_step by reflexivity.
    reflexivity.
  - apply py_max_range; apply extract_range.
  - apply extract_range.
  - apply extract_range.
Qed.


Lemma monitor_ready_init : monitor_ready GameState.init.
Proof.
  split; intros name Hname; simpl in Hname;
    repeat (destruct Hname as [<- | Hname]; [eexists; reflexivity|]);
    contradiction.
Qed.


(** *** game_state.py: calibration at any resolution *)



Lemma scale_down_bound (x n : Z) (d : positive) :
  0 <= x -> 0 <= n <= Z.pos d ->
  0 <= py_int (inject_Z x * (inject_Z n / (Z.pos d # 1))) <= x.
Proof.
  intros Hx Hn. rewrite py_int_scale. split.
  - apply Z.quot_pos; nia.
  - apply Z.quot_le_upper_bound; nia.
Qed.

(** X6. Calibrating to a resolution that does not exceed the reference
    (0 to 1920 wide, 0 to 1080 high) never moves a region away from the
    origin and never enlarges it: every coordinate of a region with
    non-negative coordinates ends between 0 and its old value. *)
Theorem calibrate_ui_regions_shrinks
    (self : GameState.GameStateMonitor) (rx ry : Z) (name : string)
    (x y width height : Z) :
  0 <= rx <= 1920 -> 0 <= ry <= 1080 ->
  GameState.ui_regions self !! name = Some ((x, y, width, height) : Region) ->
  0 <= x -> 0 <= y -> 0 <= width -> 0 <= height ->
  exists x' y' width' height' : Z,
    GameState.ui_regions (GameState.calibrate_ui_regions self (rx, ry)) !! name
    = Some (x', y', width', height') /\
    0 <= x' <= x /\ 0 <= y' <= y /\
    0 <= width' <= width /\ 0 <= height' <= height.
Proof.
  intros Hrx Hry Hname Hx Hy Hw Hh.
  unfold GameState.calibrate_ui_regions. simpl GameState.ui_regions.
  eexists _, _, _, _. rewrite lookup_fmap, Hname. simpl.
  split; [reflexivity|].
  repeat split;
    first [apply (scale_down_bound _ rx 1920); lia
          | apply (scale_down_bound _ ry 1080); lia].
Qed.

Lemma calibrate_ui_regions_shrinks_witness :
  exists x' y' width' height' : Z,
    GameState.ui_regions
      (GameState.calibrate_ui_regions GameState.init (1280, 720))
    !! "experience_bar"
    = Some (x', y', width', height') /\
    0 <= x' <= 50 /\ 0 <= y' <= 110 /\
    0 <= width' <= 300 /\ 0 <= height' <= 15.
Proof.
  apply (calibrate_ui_regions_shrinks GameState.init 1280 720
           "experience_bar" 50 110 300 15); try lia.
  reflexivity.
Defined.

(** *** game_state.py: waiting for recovery *)

Section Recovery.
Context `{Host} `{Vision}.
Variable self : GameState.GameStateMonitor.
Hypothesis Hready : monitor_ready self.
Variables (start_time target_percentage timeout : Q).




End Recovery.



(** *** player_attacks.py: timings and custom chains *)

Lemma bind_ext {A B : Type} (m : M A) (k1 k2 : A -> M B) (w : World) :
  (forall (a : A) (w' : World), k1 a w' = k2 a w') ->
  (m ≫= k1) w = (m ≫= k2) w.
Proof.
  intros Hk. unfold mbind, M_bind, bind.
  destruct (m w) as [[a|e] w']; [apply Hk | reflexivity].
Qed.



Section Chains.
Context `{Host} `{Vision}.

(** The loop reads the controller through its hotkeys only. *)
Lemma attack_loop_hotkeys (c1 c2 : PlayerAttacks.AttackController)
    (chain : list (Z * Q)) (interrupt : bool) :
  PlayerAttacks.hotkeys c1 = PlayerAttacks.hotkeys c2 ->
  forall w : World,
    PlayerAttacks.attack_loop c1 chain interrupt w
    = PlayerAttacks.attack_loop c2 chain interrupt w.
Proof.
  intros Hkeys. induction chain as [|[slot wait] chain IH]; intros w.
  - reflexivity.
  - cbn [PlayerAttacks.attack_loop]. apply bind_ext. intros low w1.
    destruct low; [reflexivity|].
    unfold PlayerAttacks.use_ability. rewrite Hkeys.
    apply bind_ext. intros _ w2. apply bind_ext. intros _ w3. apply IH.
Qed.


End Chains.





(** X11. A custom sequence does what registering it as a chain and
    executing that chain does, valid slots or not. *)
Theorem custom_attack_sequence_as_chain `{Host} `{Vision}
    (self : PlayerAttacks.AttackController) (name : string)
    (sequence : list (Z * Q)) (w : World) :
  PlayerAttacks.custom_attack_sequence self sequence w
  = PlayerAttacks.execute_attack_chain
      (PlayerAttacks.add_custom_chain self name sequence) name false w.
Proof.
  unfold PlayerAttacks.execute_attack_chain. simpl. rewrite lookup_insert_eq.
  rewrite (attack_loop_hotkeys
             (PlayerAttacks.add_custom_chain self name sequence) self
             sequence false eq_refl).
  revert w. induction sequence as [|[slot wait] sequence IH]; intros w.
  - reflexivity.
  - symmetry. cbn [PlayerAttacks.attack_loop].
    run_step by reflexivity.
    symmetry. cbn [PlayerAttacks.custom_attack_sequence].
    apply bind_ext. intros _ w1. apply bind_ext. intros _ w2. apply IH.
Qed.




(** *** player_attacks.py: fallbacks and shortcuts *)





(** X14. [target_and_attack] checks the chain name only after targeting:
    with a name that is not in the registry the target key has been pressed
    and 0.3 seconds slept when [ValueError] is raised. *)
Theorem target_and_attack_unknown_chain `{Host} `{Vision}
    (self : PlayerAttacks.AttackController) (target_key attack_chain : string)
    (w : World) :
  PlayerAttacks.attack_chains self !! attack_chain = None ->
  PlayerAttacks.target_and_attack self target_key attack_chain w
  = (Raise (ValueError ("Unknown attack chain: " +:+ attack_chain)),
     add_events w [KeyPress target_key; Sleep 0.3%Q]).
Proof.
  intros Hname. unfold PlayerAttacks.target_and_attack.
  run_step by (apply emit_run).
  run_step by (apply emit_run).
  unfold PlayerAttacks.execute_attack_chain. rewrite Hname.
  rewrite add_events_app. reflexivity.
Qed.

Lemma target_and_attack_unknown_chain_witness :
  @PlayerAttacks.target_and_attack Sample.idle Sample.vision
    PlayerAttacks.init "tab" "unknown_chain" world0
  = (Raise (ValueError "Unknown attack chain: unknown_chain"),
     add_events world0 [KeyPress "tab"; Sleep 0.3%Q]).
Proof.
  apply (@target_and_attack_unknown_chain Sample.idle Sample.vision
           PlayerAttacks.init "tab" "unknown_chain" world0).
  reflexivity.
Defined.

Lemma init_hotkeys (n : Z) :
  is_Some (PlayerAttacks.hotkeys PlayerAttacks.init !! n) <-> 1 <= n <= 9.
Proof.
  split.
  - intros [key Hkey]. unfold PlayerAttacks.init in Hkey. simpl in Hkey.
    repeat (rewrite lookup_insert in Hkey; case_decide; [lia|]).
    rewrite lookup_empty in Hkey. discriminate.
  - intros Hn.
    assert (Hcases : n = 1 \/ n = 2 \/ n = 3 \/ n = 4 \/ n = 5 \/ n = 6
                     \/ n = 7 \/ n = 8 \/ n = 9) by lia.
    repeat (destruct Hcases as [-> | Hcases]; [eexists; reflexivity|]).
    subst n. eexists. reflexivity.
Qed.

(** X15. Whatever chains are added and timings modified, the hotkeys stay
    those of the slots 1 to 9 (no other slot ever becomes usable) and the
    chains registered at the start stay registered, so a shortcut such as
    [burst_combo] never meets an unknown chain name. *)
Theorem configured_invariant (c : PlayerAttacks.AttackController) :
  configured c ->
  (forall n : Z, is_Some (PlayerAttacks.hotkeys c !! n) <-> 1 <= n <= 9) /\
  (forall name : string,
     is_Some (PlayerAttacks.attack_chains PlayerAttacks.init !! name) ->
     is_Some (PlayerAttacks.attack_chains c !! name)).
Proof.
  induction 1 as [|c name chain _ [IHkeys IHchains]
                  |c ability_number new_timing _ [IHkeys IHchains]].
  - split; [apply init_hotkeys | tauto].
  - split; [exact IHkeys|].
    intros other Hother. simpl. rewrite lookup_insert.
    destruct (decide (name = other)); [eexists; reflexivity | apply IHchains, Hother].
  - split; [exact IHkeys | exact IHchains].
Qed.

Lemma configured_invariant_witness :
  is_Some
    (PlayerAttacks.attack_chains
       (PlayerAttacks.modify_ability_timing
          (PlayerAttacks.add_custom_chain PlayerAttacks.init "power_combo"
             [(10, 1.0%Q)]) 10 0.5%Q)
     !! "power_combo") /\
  ~ is_Some
      (PlayerAttacks.hotkeys
         (PlayerAttacks.modify_ability_timing
            (PlayerAttacks.add_custom_chain PlayerAttacks.init "power_combo"
               [(10, 1.0%Q)]) 10 0.5%Q)
       !! 10).
Proof.
  destruct (configured_invariant _
              (configured_timing _ 10 0.5%Q
                 (configured_chain _ "power_combo" [(10, 1.0%Q)] configured_init)))
    as [Hkeys Hchains].
  split.
  - apply Hchains. eexists. reflexivity.
  - intros Hsome. apply Hkeys in Hsome. lia.
Defined.

(** X16. With the interrupt policy on, the health is read before every
    step on a fresh monitor, that is on the default health-bar region; when
    that read is below 20 at the first step, the chain ends without a
    single key press, after that one capture. *)
Theorem execute_attack_chain_interrupted `{Host} `{Vision}
    (self : PlayerAttacks.AttackController) (name : string)
    (slot : Z) (wait : Q) (rest : list (Z * Q)) (health : Q) (w : World) :
  PlayerAttacks.attack_chains self !! name = Some ((slot, wait) :: rest) ->
  (GameState.get_health_percentage GameState.init w).1 = Ok health ->
  (health < 20)%Q ->
  PlayerAttacks.execute_attack_chain self name true w = (Ok tt, bump w 1 0).
Proof.
  intros Hname Hhealth Hlow.
  assert (Hget : GameState.get_health_percentage GameState.init w
                 = (Ok health, bump w 1 0)).
  { rewrite <- Hhealth.
    rewrite (get_health_percentage_run GameState.init w
               (50, 50, 200, 20) ((40, 120, 70), (80, 255, 255))
               ((0, 120, 70), (10, 255, 255)) eq_refl eq_refl eq_refl).
    reflexivity. }
  unfold PlayerAttacks.execute_attack_chain. rewrite Hname.
  cbn [PlayerAttacks.attack_loop].
  erewrite bind_Ok.
  2: { run_step by (exact Hget). reflexivity. }
  cbv beta. apply Qlt_bool_iff in Hlow. rewrite Hlow. reflexivity.
Qed.

Lemma execute_attack_chain_interrupted_witness :
  @PlayerAttacks.execute_attack_chain Sample.idle Sample.vision
    PlayerAttacks.init "basic_combo" true world0
  = (Ok tt, bump world0 1 0).
Proof.
  apply (@execute_attack_chain_interrupted Sample.idle Sample.vision
           PlayerAttacks.init "basic_combo" 1 1.2%Q
           [(2, 1.5%Q); (3, 2.0%Q)] 0 world0).
  - reflexivity.
  - vm_compute. reflexivity.
  - reflexivity.
Defined.

(** *** player_movement.py: held keys *)

Lemma key_state_app (a b : list Event) (down : gset string) :
  key_state (a ++ b) down = key_state b (key_state a down).
Proof.
  revert down. induction a as [|ev a IH]; intros down; [reflexivity|].
  destruct ev; simpl; apply IH.
Qed.

Lemma releases_quiet {A : Type} (m : M A) :
  (forall w : World, events (m w).2 = events w) -> releases_keys m.
Proof.
  intros Hquiet w. exists []. split.
  - rewrite Hquiet, app_nil_r. reflexivity.
  - intros down. reflexivity.
Qed.

Lemma releases_ret {A : Type} (a : A) : releases_keys (ret a).
Proof. apply releases_quiet. reflexivity. Qed.

Lemma releases_raise {A : Type} (e : Exn) : releases_keys (@raise A e).
Proof. apply releases_quiet. reflexivity. Qed.

Lemma releases_getitem {V : Type} (d : gmap string V) (k : string) :
  releases_keys (getitem d k).
Proof.
  apply releases_quiet. intros w. unfold getitem.
  destruct (d !! k); reflexivity.
Qed.

Lemma releases_bind {A B : Type} (m : M A) (k : A -> M B) :
  releases_keys m -> (forall a : A, releases_keys (k a)) ->
  releases_keys (m ≫= k).
Proof.
  intros Hm Hk w. destruct (Hm w) as (evs1 & Hev1 & Hdown1).
  unfold mbind, M_bind, bind.
  destruct (m w) as [[a|e] w1] eqn:Hrun; simpl in Hev1.
  - destruct (Hk a w1) as (evs2 & Hev2 & Hdown2).
    exists (evs1 ++ evs2). split.
    + rewrite Hev2, Hev1, app_assoc. reflexivity.
    + intros down. rewrite key_state_app.
      etransitivity; [apply Hdown2 | apply Hdown1].
  - exists evs1. split; [exact Hev1 | exact Hdown1].
Qed.

Lemma releases_try_except {A : Type} (m : M A) (h : Exn -> M A) :
  releases_keys m -> (forall e : Exn, releases_keys (h e)) ->
  releases_keys (try_except m h).
Proof.
  intros Hm Hh w. destruct (Hm w) as (evs1 & Hev1 & Hdown1).
  unfold try_except.
  destruct (m w) as [[a|e] w1] eqn:Hrun; simpl in Hev1.
  - exists evs1. split; [exact Hev1 | exact Hdown1].
  - destruct (Hh e w1) as (evs2 & Hev2 & Hdown2).
    exists (evs1 ++ evs2). split.
    + rewrite Hev2, Hev1, app_assoc. reflexivity.
    + intros down. rewrite key_state_app.
      etransitivity; [apply Hdown2 | apply Hdown1].
Qed.

Lemma releases_press (key : string) : releases_keys (pyautogui_press key).
Proof.
  intros w. exists [KeyPress key]. split; [reflexivity|].
  intros down. reflexivity.
Qed.

Lemma releases_sleep (seconds : Q) : releases_keys (time_sleep seconds).
Proof.
  intros w. exists [Sleep seconds]. split; [reflexivity|].
  intros down. reflexivity.
Qed.

(** A timed hold raises before it touches the keyboard or releases the key
    that it pressed. *)
Lemma releases_hold (self : PlayerMovement.MovementController)
    (name : string) (duration : Q) :
  releases_keys (PlayerMovement.hold self name duration).
Proof.
  intros w. unfold PlayerMovement.hold, getitem.
  destruct (PlayerMovement.keys self !! name) as [k|] eqn:Hk.
  - exists [KeyDown k; Sleep duration; KeyUp k]. split.
    + unfold mbind, M_bind, bind. simpl.
      rewrite <- !app_assoc. reflexivity.
    + intros down x Hx. simpl in Hx.
      apply elem_of_difference in Hx as [Hx Hout].
      apply elem_of_union in Hx as [Hx|Hx]; [contradiction | exact Hx].
  - exists []. split.
    + unfold mbind, M_bind, bind. simpl. rewrite app_nil_r. reflexivity.
    + intros down. reflexivity.
Qed.

Lemma releases_repeat (n : nat) (body : M unit) :
  releases_keys body -> releases_keys (PlayerMovement.repeat_m n body).
Proof.
  intros Hbody. induction n as [|n IH].
  - apply releases_ret.
  - cbn [PlayerMovement.repeat_m]. apply releases_bind; [exact Hbody|].
    intros _. exact IH.
Qed.

Lemma releases_circle_strafe (self : PlayerMovement.MovementController)
    (radius duration : Q) (clockwise : bool) :
  releases_keys
    (PlayerMovement.circle_strafe_target self radius duration clockwise).
Proof.
  unfold PlayerMovement.circle_strafe_target.
  destruct (py_int (duration * 10) =? 0); [apply releases_raise|].
  apply releases_repeat.
  apply releases_bind; [apply releases_hold|]. intros _.
  apply releases_bind.
  - destruct clockwise;
      (apply releases_bind; [apply releases_hold|]; intros _; apply releases_hold).
  - intros _. apply releases_sleep.
Qed.


(** *** player_movement.py: the circle strafe *)

Lemma hold_run (self : PlayerMovement.MovementController)
    (name key : string) (duration : Q) (w : World) :
  PlayerMovement.keys self !! name = Some key ->
  PlayerMovement.hold self name duration w
  = (Ok tt, add_events w [KeyDown key; Sleep duration; KeyUp key]).
Proof.
  intros Hkey. unfold PlayerMovement.hold.
  run_step by (apply getitem_Some, Hkey).
  run_step by (apply emit_run).
  run_step by (apply emit_run).
  run_step by (apply getitem_Some, Hkey).
  unfold pyautogui_keyUp. rewrite emit_run, !add_events_app. reflexivity.
Qed.

Lemma repeat_m_run (body : M unit) (evs : list Event) :
  (forall w : World, body w = (Ok tt, add_events w evs)) ->
  forall (n : nat) (w : World),
    PlayerMovement.repeat_m n body w
    = (Ok tt, add_events w (concat (repeat evs n))).
Proof.
  intros Hbody. induction n as [|n IH]; intros w.
  - simpl. rewrite add_events_nil. reflexivity.
  - cbn [PlayerMovement.repeat_m]. run_step by (apply Hbody).
    rewrite IH, add_events_app. reflexivity.
Qed.

Lemma total_sleep_app (a b : list Event) :
  (total_sleep (a ++ b) == total_sleep a + total_sleep b)%Q.
Proof.
  induction a as [|ev a IH]; simpl.
  - ring.
  - destruct ev; simpl; rewrite ?IH; ring.
Qed.

Lemma total_sleep_repeat (evs : list Event) (n : nat) :
  (total_sleep (concat (repeat evs n))
   == inject_Z (Z.of_nat n) * total_sleep evs)%Q.
Proof.
  induction n as [|n IH].
  - simpl. ring.
  - cbn [repeat concat]. rewrite total_sleep_app, IH.
    rewrite Nat2Z.inj_succ. unfold Z.succ. rewrite inject_Z_plus. ring.
Qed.

Lemma length_concat_repeat {A : Type} (l : list A) (n : nat) :
  length (concat (repeat l n)) = (n * length l)%nat.
Proof.
  induction n as [|n IH]; [reflexivity|].
  cbn [repeat concat]. rewrite length_app, IH. reflexivity.
Qed.

(** X18. A circle strafe of [duration] seconds with at least one step
    ([int(duration * 10) >= 1]) and its three key bindings in place makes
    [int(duration * 10)] rounds of forward, strafe and turn holds, ten input
    events each, and sleeps [duration + 2] seconds in all: the full turn of
    360 degrees alone costs two seconds on top of the duration asked for. *)
Theorem circle_strafe_target_duration
    (self : PlayerMovement.MovementController) (radius duration : Q)
    (clockwise : bool) (forward strafe turn : string) (w : World) :
  PlayerMovement.keys self !! "forward" = Some forward ->
  PlayerMovement.keys self
    !! (if clockwise then "strafe_right" else "strafe_left") = Some strafe ->
  PlayerMovement.keys self
    !! (if clockwise then "turn_right" else "turn_left") = Some turn ->
  1 <= py_int (duration * 10) ->
  exists evs : list Event,
    PlayerMovement.circle_strafe_target self radius duration clockwise w
    = (Ok tt, add_events w evs) /\
    (total_sleep evs == duration + 2)%Q /\
    Z.of_nat (length evs) = 10 * py_int (duration * 10).
Proof.
  intros Hforward Hstrafe Hturn Hsteps.
  unfold PlayerMovement.circle_strafe_target.
  set (steps := py_int (duration * 10)) in *.
  destruct (steps =? 0) eqn:Hzero; [lia|].
  set (sd := (duration / inject_Z steps)%Q).
  set (ta := (360 / inject_Z steps)%Q).
  set (round := [KeyDown forward; Sleep (sd * 0.3); KeyUp forward;
                 KeyDown strafe; Sleep (sd * 0.4); KeyUp strafe;
                 KeyDown turn; Sleep (ta / 180); KeyUp turn;
                 Sleep (sd * 0.3)]%Q).
  exists (concat (repeat round (Z.to_nat steps))).
  split; [|split].
  - apply repeat_m_run. intros w'.
    unfold PlayerMovement.move_forward.
    run_step by (apply hold_run, Hforward).
    destruct clockwise.
    + unfold PlayerMovement.strafe_right, PlayerMovement.turn_right.
      erewrite bind_Ok.
      2: { run_step by (apply hold_run, Hstrafe). apply hold_run, Hturn. }
      cbv beta. unfold time_sleep. rewrite emit_run, !add_events_app.
      reflexivity.
    + unfold PlayerMovement.strafe_left, PlayerMovement.turn_left.
      erewrite bind_Ok.
      2: { run_step by (apply hold_run, Hstrafe). apply hold_run, Hturn. }
      cbv beta. unfold time_sleep. rewrite emit_run, !add_events_app.
      reflexivity.
  - rewrite total_sleep_repeat, Z2Nat.id by lia.
    assert (Hnonzero : ~ (inject_Z steps == 0)%Q).
    { unfold Qeq. simpl. lia. }
    subst round sd ta. simpl. field. exact Hnonzero.
  - rewrite length_concat_repeat, Nat2Z.inj_mul, Z2Nat.id by lia.
    subst round. simpl length. lia.
Qed.

Lemma circle_strafe_target_duration_witness :
  exists evs : list Event,
    PlayerMovement.circle_strafe_target PlayerMovement.init 8 2.0 true world0
    = (Ok tt, add_events world0 evs) /\
    (total_sleep evs == 4)%Q /\
    Z.of_nat (length evs) = 200.
Proof.
  destruct (circle_strafe_target_duration PlayerMovement.init 8 2.0 true
              "w" "d" "e" world0 eq_refl eq_refl eq_refl)
    as (evs & Hrun & Hsleep & Hlength).
  - vm_compute. discriminate.
  - exists evs. split; [exact Hrun|]. split.
    + rewrite Hsleep. reflexivity.
    + rewrite Hlength. reflexivity.
Defined.

(** X19. A circle strafe too short for one step ([int(duration * 10) = 0],
    any duration under a tenth of a second in size) raises
    [ZeroDivisionError] before any input; a negative duration of a tenth of
    a second or more makes no round at all and returns. *)
Theorem circle_strafe_target_no_step
    (self : PlayerMovement.MovementController) (radius duration : Q)
    (clockwise : bool) (w : World) :
  (py_int (duration * 10) = 0 ->
   PlayerMovement.circle_strafe_target self radius duration clockwise w
   = (Raise (ZeroDivisionError "float division by zero"), w)) /\
  (py_int (duration * 10) < 0 ->
   PlayerMovement.circle_strafe_target self radius duration clockwise w
   = (Ok tt, w)).
Proof.
  unfold PlayerMovement.circle_strafe_target. split.
  - intros ->. reflexivity.
  - intros Hneg. destruct (py_int (duration * 10) =? 0) eqn:E; [lia|].
    destruct (py_int (duration * 10)) as [|p|p]; try lia. reflexivity.
Qed.

Lemma circle_strafe_target_no_step_witness :
  PlayerMovement.circle_strafe_target PlayerMovement.init 8 0.05 true world0
  = (Raise (ZeroDivisionError "float division by zero"), world0) /\
  PlayerMovement.circle_strafe_target PlayerMovement.init 8 (-1) true world0
  = (Ok tt, world0).
Proof.
  split.
  - apply (circle_strafe_target_no_step PlayerMovement.init 8 0.05 true world0).
    reflexivity.
  - apply (circle_strafe_target_no_step PlayerMovement.init 8 (-1) true world0).
    reflexivity.
Defined.

(** *** llm_integrations.py: the dispatcher on the offered actions *)

(** Every action that a prompt offers is a name that the dispatcher
    compares against. *)
Lemma offered_actions_known (scenario name : string) :
  In name (Nova.allowed_actions (Nova.decision_prompts Nova.init) scenario) ->
  In name Nova.known_actions.
Proof.
  unfold Nova.allowed_actions, Nova.init. simpl Nova.decision_prompts.
  repeat (rewrite lookup_insert; case_decide;
          [simpl; intros Hin;
           repeat (destruct Hin as [<- | Hin]; [simpl; tauto|]);
           contradiction|]).
  rewrite lookup_empty. intros [].
Qed.

(** X20. Of the actions that the prompts offer, the dispatcher carries out
    all but two: a decision whose action is offered by some prompt returns
    [True], except ["patrol"] and ["search_enemies"], which call controller
    methods that do not exist and therefore return [False] with no input
    sent. *)
Theorem execute_decision_offered_action `{Host} `{Vision}
    (scenario name : string) (decision : gmap string PyVal) (w : World) :
  In name (Nova.allowed_actions (Nova.decision_prompts Nova.init) scenario) ->
  decision !! "action" = Some (PStr name) ->
  (name <> "patrol" -> name <> "search_enemies" ->
   (Nova.execute_decision decision w).1 = Ok true) /\
  (name = "patrol" \/ name = "search_enemies" ->
   Nova.execute_decision decision w = (Ok false, w)).
Proof.
  intros Hoffered Haction.
  apply offered_actions_known in Hoffered.
  unfold Nova.execute_decision, Nova.dict_get. rewrite Haction.
  cbn [default]. clear Haction.
  unfold Nova.known_actions in Hoffered. simpl in Hoffered.
  repeat (destruct Hoffered as [<- | Hoffered];
          [split; [intros Hp Hs; try congruence; vm_compute; reflexivity
                  |intros [Hp|Hs]; try discriminate; vm_compute; reflexivity]|]).
  contradiction.
Qed.

Lemma execute_decision_offered_action_witness :
  (@Nova.execute_decision Sample.idle Sample.vision
     (<["action" := PStr "find_cover"]> ∅) world0).1 = Ok true /\
  @Nova.execute_decision Sample.idle Sample.vision
    (<["action" := PStr "patrol"]> ∅) world0 = (Ok false, world0).
Proof.
  split.
  - apply (@execute_decision_offered_action Sample.idle Sample.vision
             "recovery" "find_cover" (<["action" := PStr "find_cover"]> ∅) world0);
      [vm_compute; tauto | reflexivity | discriminate | discriminate].
  - apply (@execute_decision_offered_action Sample.idle Sample.vision
             "exploration" "patrol" (<["action" := PStr "patrol"]> ∅) world0);
      [vm_compute; tauto | reflexivity | left; reflexivity].
Defined.

Section Dispatch.
Context `{Host} `{Vision}.

Lemma releases_use_ability (self : PlayerAttacks.AttackController)
    (ability_number : Z) (wait : bool) :
  releases_keys (PlayerAttacks.use_ability self ability_number wait).
Proof.
  unfold PlayerAttacks.use_ability.
  destruct (PlayerAttacks.hotkeys self !! ability_number);
    [|apply releases_raise].
  apply releases_bind; [apply releases_press|]. intros _.
  destruct wait; [apply releases_sleep | apply releases_ret].
Qed.

Lemma releases_get_health (self : GameState.GameStateMonitor) :
  releases_keys (GameState.get_health_percentage self).
Proof.
  unfold GameState.get_health_percentage.
  apply releases_bind; [apply releases_quiet; reflexivity|]. intros img.
  apply releases_bind; [apply releases_getitem|]. intros region.
  apply releases_bind; [apply releases_getitem|]. intros green.
  apply releases_bind; [apply releases_getitem|]. intros red.
  apply releases_ret.
Qed.

Lemma releases_attack_loop (self : PlayerAttacks.AttackController)
    (chain : list (Z * Q)) (interrupt : bool) :
  releases_keys (PlayerAttacks.attack_loop self chain interrupt).
Proof.
  induction chain as [|[slot wait] chain IH].
  - apply releases_ret.
  - cbn [PlayerAttacks.attack_loop]. apply releases_bind.
    + destruct interrupt; [|apply releases_ret].
      apply releases_bind; [apply releases_get_health|]. intros health.
      apply releases_ret.
    + intros low. destruct low; [apply releases_ret|].
      apply releases_bind; [apply releases_use_ability|]. intros _.
      apply releases_bind; [apply releases_sleep|]. intros _. exact IH.
Qed.

Lemma releases_execute_attack_chain (self : PlayerAttacks.AttackController)
    (name : string) (interrupt : bool) :
  releases_keys (PlayerAttacks.execute_attack_chain self name interrupt).
Proof.
  unfold PlayerAttacks.execute_attack_chain.
  destruct (PlayerAttacks.attack_chains self !! name);
    [apply releases_attack_loop | apply releases_raise].
Qed.

End Dispatch.

(** X21. Whatever the decision holds, [execute_decision] returns a boolean
    and never an exception, it only adds events to the input, and when it is
    done no key that it pressed down is still held. *)
Theorem execute_decision_safe `{Host} `{Vision} (decision : gmap string PyVal) :
  releases_keys (Nova.execute_decision decision) /\
  (forall w : World,
     exists success : bool, (Nova.execute_decision decision w).1 = Ok success).
Proof.
  split.
  - unfold Nova.execute_decision.
    apply releases_try_except; [|intros _; apply releases_ret].
    repeat match goal with
           | |- releases_keys (if ?c then _ else _) => destruct c
           | |- releases_keys (_ ≫= _) => apply releases_bind; [|intros _]
           | |- releases_keys (PlayerAttacks.execute_attack_chain _ _ _) =>
               apply releases_execute_attack_chain
           | |- releases_keys (PlayerMovement.circle_strafe_target _ _ _ _) =>
               apply releases_circle_strafe
           | |- releases_keys (PlayerMovement.move_backward _ _) =>
               apply releases_hold
           | |- releases_keys (PlayerMovement.move_forward _ _) =>
               apply releases_hold
           | |- releases_keys (PlayerMovement.turn_left _ _) => apply releases_hold
           | |- releases_keys (PlayerMovement.turn_right _ _) => apply releases_hold
           | |- releases_keys (time_sleep _) => apply releases_sleep
           | |- releases_keys (ret _) => apply releases_ret
           | |- releases_keys (mret _) => apply releases_ret
           | |- releases_keys (raise _) => apply releases_raise
           end.
  - intros w. unfold Nova.execute_decision, try_except.
    match goal with
    | |- context [match ?m w with _ => _ end] =>
        destruct (m w) as [[success|e] w1]
    end; eexists; reflexivity.
Qed.

(** X22. A decision without an action entry is dispatched as ["rest"]: the
    call sleeps three seconds, presses nothing and returns [True]. *)
Theorem execute_decision_missing_action `{Host} `{Vision}
    (decision : gmap string PyVal) (w : World) :
  decision !! "action" = None ->
  Nova.execute_decision decision w = (Ok true, add_events w [Sleep 3.0%Q]).
Proof.
  intros Haction. unfold Nova.execute_decision, Nova.dict_get.
  rewrite Haction. reflexivity.
Qed.

Lemma execute_decision_missing_action_witness :
  @Nova.execute_decision Sample.idle Sample.vision
    (<["reason" := PStr "no idea"]> ∅) world0
  = (Ok true, add_events world0 [Sleep 3.0%Q]).
Proof.
  apply (@execute_decision_missing_action Sample.idle Sample.vision).
  reflexivity.
Defined.

(** *** llm_integrations.py: one decision cycle *)

Lemma combat_check_keeps_tables (self : GameState.GameStateMonitor) (endurance : Q) :
  GameState.ui_regions (GameState.combat_check self endurance).2
  = GameState.ui_regions self /\
  GameState.color_ranges (GameState.combat_check self endurance).2
  = GameState.color_ranges self.
Proof.
  unfold GameState.combat_check.
  destruct (GameState.last_endurance self) as [last|]; [|split; reflexivity].
  destruct (Qlt_bool 5 (last - endurance)); split; reflexivity.
Qed.

Lemma combat_check_keeps_ready (self : GameState.GameStateMonitor) (endurance : Q) :
  monitor_ready self -> monitor_ready (GameState.combat_check self endurance).2.
Proof.
  intros [Hregions Hranges].
  destruct (combat_check_keeps_tables self endurance) as [Hr Hc].
  split; intros name Hname; [rewrite Hr | rewrite Hc]; auto.
Qed.

Lemma detect_combat_state_run `{Host} `{Vision}
    (self : GameState.GameStateMonitor) (w : World) :
  monitor_ready self ->
  exists endurance : Q,
    GameState.detect_combat_state self w
    = (Ok (GameState.combat_check self endurance), bump w 3 1).
Proof.
  intros Hready.
  destruct (get_player_stats_run self w Hready)
    as (health & endurance & experience & Hrun & _).
  exists endurance. unfold GameState.detect_combat_state.
  run_step by (exact Hrun).
  unfold GameState.stats_endurance.
  erewrite bind_Ok.
  2: { run_step by (apply getitem_Some;
                    rewrite lookup_insert_ne by discriminate;
                    apply lookup_insert_eq).
       reflexivity. }
  reflexivity.
Qed.

Lemma detect_enemy_target_run `{Host} `{Vision}
    (self : GameState.GameStateMonitor) (w : World) :
  monitor_ready self ->
  exists targeted : bool,
    GameState.detect_enemy_target self w = (Ok targeted, bump w 1 0).
Proof.
  intros Hready.
  destruct (monitor_ready_lookups self Hready)
    as (_ & _ & _ & r4 & _ & _ & _ & _ & _ & _ & _ & Hr4 & _).
  eexists. unfold GameState.detect_enemy_target.
  run_step by (apply getitem_Some, Hr4).
  run_step by reflexivity.
  reflexivity.
Qed.

Lemma get_screenshot_data_run `{Host} `{Vision} `{Remote}
    (self : Nova.NovaGameplayAI) (w : World) :
  exists data : option string,
    Nova.get_screenshot_data self w = (Ok data, bump w 1 0).
Proof.
  unfold Nova.get_screenshot_data, try_except, mbind, M_bind, bind,
    GameState.take_screenshot, Nova.lift.
  destruct (png_base64 _); eexists; reflexivity.
Qed.

(** On a stats record with numeric health and endurance and boolean flags
    the classification returns a scenario that has a prompt. *)
Lemma analyze_game_state_typed (stats : gmap string PyVal)
    (health endurance : Q) (in_combat enemy_targeted : bool) :
  stats !! "health" = Some (PNum health) ->
  stats !! "endurance" = Some (PNum endurance) ->
  stats !! "in_combat" = Some (PBool in_combat) ->
  stats !! "enemy_targeted" = Some (PBool enemy_targeted) ->
  exists (scenario : string) (template : Nova.PromptTemplate),
    Nova.analyze_game_state stats = Ok scenario /\
    In scenario ["recovery"; "combat"; "exploration"] /\
    Nova.decision_prompts Nova.init !! scenario = Some template.
Proof.
  intros Hh He Hc Ht. unfold Nova.analyze_game_state, Nova.dict_get.
  rewrite Hh, He, Hc, Ht. simpl.
  destruct (Qlt_bool health 30);
    [eexists _, _; split; [reflexivity|]; split; [simpl; auto | reflexivity]|].
  destruct (Qlt_bool endurance 20);
    [eexists _, _; split; [reflexivity|]; split; [simpl; auto | reflexivity]|].
  destruct (in_combat || enemy_targeted);
    eexists _, _; (split; [reflexivity|]; split; [simpl; auto | reflexivity]).
Qed.

(** One decision cycle on a ready monitor, step by step: eight captures and
    two clock reads lead to the inference call; its value either takes the
    three metadata entries (after a third clock read) or, not being a dict,
    makes the assignment raise. *)
Lemma make_gameplay_decision_run `{Host} `{Vision} `{Remote}
    (self : Nova.NovaGameplayAI) (w : World) :
  monitor_ready (Nova.game_monitor self) ->
  Nova.decision_prompts self = Nova.decision_prompts Nova.init ->
  exists (stats : gmap string PyVal) (scenario prompt : string)
         (data : option string) (v : PyVal) (self' : Nova.NovaGameplayAI),
    In scenario ["recovery"; "combat"; "exploration"] /\
    Nova.analyze_game_state stats = Ok scenario /\
    Nova.call_nova_with_image prompt data (bump w 8 2) = (Ok v, bump w 8 2) /\
    ((exists reply : gmap string PyVal,
        v = PDict reply /\
        Nova.make_gameplay_decision self w
        = (Ok (PDict (<["timestamp" := PNum (time_time (2 + ticks w))]>
                      (<["game_state" := PDict stats]>
                      (<["scenario" := PStr scenario]> reply))), self'),
           bump w 8 3))
     \/
     ((forall reply : gmap string PyVal, v <> PDict reply) /\
      exists msg : string,
        Nova.make_gameplay_decision self w
        = (Raise (TypeError msg), bump w 8 2))).
Proof.
  intros Hready Hprompts.
  destruct (get_player_stats_run (Nova.game_monitor self) w Hready)
    as (health & endurance & experience & Hstats & _).
  destruct (detect_combat_state_run (Nova.game_monitor self) (bump w 3 1) Hready)
    as (endurance2 & Hcombat).
  pose proof (combat_check_keeps_ready (Nova.game_monitor self) endurance2 Hready)
    as Hready2.
  destruct (GameState.combat_check (Nova.game_monitor self) endurance2)
    as [in_combat monitor] eqn:Hcheck.
  simpl in Hready2.
  destruct (detect_enemy_target_run monitor (bump (bump w 3 1) 3 1) Hready2)
    as (targeted & Htarget).
  set (stats := (<["enemy_targeted" := PBool targeted]>
                 (<["in_combat" := PBool in_combat]>
                 (<["health" := PNum health]>
                 (<["endurance" := PNum endurance]>
                 (<["experience" := PNum experience]>
                 (<["timestamp" := PNum (time_time (ticks w))]> ∅)))))
                 : gmap string PyVal)).
  destruct (analyze_game_state_typed stats health endurance in_combat targeted)
    as (scenario & template & Hscenario & Hnames & Htemplate).
  { subst stats. repeat (rewrite lookup_insert_ne by discriminate).
    apply lookup_insert_eq. }
  { subst stats. repeat (rewrite lookup_insert_ne by discriminate).
    apply lookup_insert_eq. }
  { subst stats. repeat (rewrite lookup_insert_ne by discriminate).
    apply lookup_insert_eq. }
  { subst stats. apply lookup_insert_eq. }
  set (self' := {| Nova.game_monitor := monitor;
                   Nova.decision_prompts := Nova.decision_prompts self |}).
  destruct (get_screenshot_data_run self' (bump (bump (bump w 3 1) 3 1) 1 0))
    as (data & Hdata).
  set (prompt := Nova.format template (json_dumps (PDict stats))).
  destruct (call_nova_returns prompt data (bump w 8 2)) as (v & Hcall).
  exists stats, scenario, prompt, data, v, self'.
  split; [exact Hnames|]. split; [exact Hscenario|]. split; [exact Hcall|].
  assert (Hhead :
    Nova.make_gameplay_decision self w
    = (decision ← Nova.lift (Nova.setitem v "scenario" (PStr scenario));
       decision ← Nova.lift (Nova.setitem decision "game_state" (PDict stats));
       timestamp ← GameState.read_clock;
       decision ← Nova.lift (Nova.setitem decision "timestamp" (PNum timestamp));
       ret (decision, self')) (bump w 8 2)).
  { unfold Nova.make_gameplay_decision.
    run_step by (exact Hstats).
    run_step by (exact Hcombat).
    run_step by (exact Htarget).
    run_step by (unfold Nova.lift; fold stats; rewrite Hscenario; reflexivity).
    run_step by (apply getitem_Some; cbn [Nova.decision_prompts];
                 rewrite Hprompts; exact Htemplate).
    run_step by (exact Hdata).
    run_step by (exact Hcall).
    reflexivity. }
  rewrite Hhead. clear Hhead.
  destruct v as [| | | | |reply].
  6: { left. exists reply. split; [reflexivity|]. reflexivity. }
  all: right; (split; [intros reply; discriminate|]); eexists; reflexivity.
Qed.



(** X24. A decision cycle that returns has taken eight captures and three
    clock reads and sent no input.  Its decision is the reply dict with
    three entries set: the timestamp (the third clock read), the stats
    record of the cycle as game state, and the scenario, which is the
    classification of that very record; a reply's own entries under these
    three names are overwritten, all its other entries are kept. *)
Theorem make_gameplay_decision_metadata `{Host} `{Vision} `{Remote}
    (self self' : Nova.NovaGameplayAI) (w w' : World) (decision : PyVal) :
  monitor_ready (Nova.game_monitor self) ->
  Nova.decision_prompts self = Nova.decision_prompts Nova.init ->
  Nova.make_gameplay_decision self w = (Ok (decision, self'), w') ->
  w' = bump w 8 3 /\
  exists (d reply stats : gmap string PyVal) (scenario prompt : string)
         (data : option string),
    decision = PDict d /\
    Nova.call_nova_with_image prompt data (bump w 8 2)
    = (Ok (PDict reply), bump w 8 2) /\
    d !! "timestamp" = Some (PNum (time_time (2 + ticks w))) /\
    d !! "game_state" = Some (PDict stats) /\
    d !! "scenario" = Some (PStr scenario) /\
    Nova.analyze_game_state stats = Ok scenario /\
    (forall key : string,
       key <> "timestamp" -> key <> "game_state" -> key <> "scenario" ->
       d !! key = reply !! key).
Proof.
  intros Hready Hprompts Hrun.
  destruct (make_gameplay_decision_run self w Hready Hprompts)
    as (stats & scenario & prompt & data & v & self1 & _ & Hscenario & Hcall
        & Hcases).
  destruct Hcases as [(reply & -> & Hmake) | (_ & msg & Hmake)];
    rewrite Hmake in Hrun; [|discriminate].
  injection Hrun as <- <- <-.
  split; [reflexivity|].
  eexists _, reply, stats, scenario, prompt, data.
  split; [reflexivity|]. split; [exact Hcall|].
  split; [apply lookup_insert_eq|].
  split; [rewrite lookup_insert_ne by discriminate; apply lookup_insert_eq|].
  split; [rewrite !lookup_insert_ne by discriminate; apply lookup_insert_eq|].
  split; [exact Hscenario|].
  intros key Ht Hg Hs. rewrite !lookup_insert_ne by congruence. reflexivity.
Qed.

Lemma make_gameplay_decision_metadata_witness :
  exists (d : gmap string PyVal) (self' : Nova.NovaGameplayAI),
    @Nova.make_gameplay_decision Sample.idle Sample.vision
      (Sample.remote (Ok (Sample.envelope (Sample.reply "rest" "low health"))))
      Nova.init world0
    = (Ok (PDict d, self'), bump world0 8 3) /\
    d !! "timestamp" = Some (PNum (Sample.clock 2)).
Proof.
  destruct (@Nova.make_gameplay_decision Sample.idle Sample.vision
              (Sample.remote
                 (Ok (Sample.envelope (Sample.reply "rest" "low health"))))
              Nova.init world0) as [[[decision self']|e] w'] eqn:Hrun.
  - destruct (@make_gameplay_decision_metadata Sample.idle Sample.vision
                (Sample.remote
                   (Ok (Sample.envelope (Sample.reply "rest" "low health"))))
                Nova.init self' world0 w' decision monitor_ready_init eq_refl Hrun)
      as (-> & d & reply & stats & scenario & prompt & data & -> & _ & Ht & _).
    exists d, self'. split; [reflexivity | exact Ht].
  - vm_compute in Hrun. discriminate.
Defined.

(** *** llm_integrations.py: error paths of the call and the classification *)



(** X26. The classification compares before it looks at the flags, and
    left to right: a health entry that is not a number (text, [None], a
    list, a dict) raises [TypeError]; a numeric health below 30 gives
    "recovery" without the endurance entry being compared at all, so an
    endurance entry that is not a number goes unnoticed then. *)
Theorem analyze_game_state_untyped (stats : gmap string PyVal) :
  (forall v : PyVal,
     stats !! "health" = Some v -> not_a_number v ->
     exists msg : string, Nova.analyze_game_state stats = Raise (TypeError msg)) /\
  (forall health : Q,
     stats !! "health" = Some (PNum health) -> (health < 30)%Q ->
     Nova.analyze_game_state stats = Ok "recovery") /\
  (forall (health : Q) (v : PyVal),
     stats !! "health" = Some (PNum health) -> (30 <= health)%Q ->
     stats !! "endurance" = Some v -> not_a_number v ->
     exists msg : string, Nova.analyze_game_state stats = Raise (TypeError msg)).
Proof.
  unfold Nova.analyze_game_state, Nova.dict_get. split; [|split].
  - intros v Hv Hnan. rewrite Hv. cbn [default].
    destruct v; try contradiction; eexists; reflexivity.
  - intros health Hv Hlow. rewrite Hv. cbn [default from_option id lt_num].
    apply Qlt_bool_iff in Hlow. rewrite Hlow. reflexivity.
  - intros health v Hh Hhigh Hv Hnan. rewrite Hh, Hv. cbn [default from_option id lt_num].
    apply Qlt_bool_false_iff in Hhigh. rewrite Hhigh.
    destruct v; try contradiction; eexists; reflexivity.
Qed.

Lemma analyze_game_state_untyped_witness :
  (exists msg : string,
     Nova.analyze_game_state (<["health" := PStr "full"]> ∅)
     = Raise (TypeError msg)) /\
  Nova.analyze_game_state
    (<["health" := PNum 10]> (<["endurance" := PStr "plenty"]> ∅))
  = Ok "recovery".
Proof.
  split.
  - apply (analyze_game_state_untyped (<["health" := PStr "full"]> ∅))
      with (v := PStr "full"); [reflexivity | exact I].
  - apply (analyze_game_state_untyped
             (<["health" := PNum 10]> (<["endurance" := PStr "plenty"]> ∅)))
      with (health := 10%Q); reflexivity.
Defined.

(** *** play_game.py: the session log *)

(** X27. [get_recent_actions(count)] returns the last [count] entries of
    the history, all of them when there are fewer.  A count of 0 does not
    give the empty list but the whole history (the slice [-0:] starts at the
    front), and a negative count drops that many entries from the front. *)
Theorem get_recent_actions_slice
    (action_history : list PlayGame.LogEntry) (count : Z) :
  (count = 0 -> PlayGame.get_recent_actions action_history count = action_history)
  /\
  (0 < count ->
   PlayGame.get_recent_actions action_history count
   = drop (length action_history - Z.to_nat count) action_history) /\
  (count < 0 ->
   PlayGame.get_recent_actions action_history count
   = drop (Z.to_nat (- count)) action_history).
Proof.
  unfold PlayGame.get_recent_actions.
  destruct action_history as [|entry history].
  - repeat split; intros _; rewrite ?drop_nil; reflexivity.
  - set (l := entry :: history).
    assert (Hslice : forall s : nat,
               Z.to_nat (slice_bound (Z.of_nat (length l)) (- count)) = s ->
               py_slice l (- count) (Z.of_nat (length l)) = drop s l).
    { intros s Hs. unfold py_slice. rewrite Hs.
      assert (He : slice_bound (Z.of_nat (length l)) (Z.of_nat (length l))
                   = Z.of_nat (length l)).
      { unfold slice_bound. destruct (Z.of_nat (length l) <? 0) eqn:E; lia. }
      rewrite He. apply take_ge. rewrite length_drop.
      unfold slice_bound in Hs |- *.
      destruct (- count <? 0) eqn:E; lia. }
    split; [|split].
    + intros ->. rewrite (Hslice 0%nat); [reflexivity|].
      unfold slice_bound. simpl. lia.
    + intros Hcount. apply Hslice. unfold slice_bound.
      destruct (- count <? 0) eqn:E; lia.
    + intros Hcount. destruct (decide (Z.to_nat (- count) <= length l)%nat).
      * apply Hslice. unfold slice_bound.
        destruct (- count <? 0) eqn:E; lia.
      * rewrite (Hslice (length l)).
        -- rewrite !drop_ge by lia. reflexivity.
        -- unfold slice_bound. destruct (- count <? 0) eqn:E; lia.
Qed.

Lemma get_recent_actions_slice_witness :
  PlayGame.get_recent_actions
    [Sample.log_entry 1; Sample.log_entry 2; Sample.log_entry 3] 0
  = [Sample.log_entry 1; Sample.log_entry 2; Sample.log_entry 3] /\
  PlayGame.get_recent_actions
    [Sample.log_entry 1; Sample.log_entry 2; Sample.log_entry 3] 2
  = [Sample.log_entry 2; Sample.log_entry 3] /\
  PlayGame.get_recent_actions
    [Sample.log_entry 1; Sample.log_entry 2; Sample.log_entry 3] (-1)
  = [Sample.log_entry 2; Sample.log_entry 3].
Proof.
  split; [|split].
  - apply (proj1 (get_recent_actions_slice
                    [Sample.log_entry 1; Sample.log_entry 2; Sample.log_entry 3]
                    0)).
    reflexivity.
  - apply (proj1 (proj2 (get_recent_actions_slice
                    [Sample.log_entry 1; Sample.log_entry 2; Sample.log_entry 3]
                    2))).
    lia.
  - apply (proj2 (proj2 (get_recent_actions_slice
                    [Sample.log_entry 1; Sample.log_entry 2; Sample.log_entry 3]
                    (-1)))).
    lia.
Defined.

(** X28. The log is append-only and numbered: in a history built by
    [log_decision] the entry at position [i] (from 0) carries the session
    action count [i + 1], and logging keeps every earlier entry in place. *)
Theorem log_decision_numbering (history : list PlayGame.LogEntry) :
  logged history ->
  (forall (i : nat) (entry : PlayGame.LogEntry),
     history !! i = Some entry ->
     PlayGame.session_action_count entry = Z.of_nat i + 1) /\
  (forall (now : string) (decision : PyVal) (success : bool)
          (i : nat) (entry : PlayGame.LogEntry),
     history !! i = Some entry ->
     PlayGame.log_decision history now decision success !! i = Some entry).
Proof.
  intros Hlogged. split.
  - induction Hlogged as [|history now decision success _ IH];
      intros i entry Hentry.
    + rewrite lookup_nil in Hentry. discriminate.
    + unfold PlayGame.log_decision in Hentry.
      apply lookup_app_Some in Hentry as [Hentry | [Hlen Hentry]].
      * apply IH, Hentry.
      * destruct (i - length history)%nat as [|j] eqn:Hj; simpl in Hentry.
        -- injection Hentry as <-. simpl. lia.
        -- rewrite lookup_nil in Hentry. discriminate.
  - intros now decision success i entry Hentry.
    unfold PlayGame.log_decision. apply lookup_app_l_Some, Hentry.
Qed.

Lemma log_decision_numbering_witness :
  exists entry : PlayGame.LogEntry,
    PlayGame.log_decision (PlayGame.log_decision [] "10:00" PNone true)
      "10:05" PNone false !! 1%nat = Some entry /\
    PlayGame.session_action_count entry = 2.
Proof.
  eexists. split; [reflexivity|].
  apply (proj1 (log_decision_numbering _
                  (logged_entry _ "10:05" PNone false
                     (logged_entry _ "10:00" PNone true logged_nil)))
           1%nat).
  reflexivity.
Defined.

(** *** player_attacks.py: rotations *)



